(** * PointPatchTransformer: the point-cloud observation encoder of pprl

    A shallow embedding of [pprl/models/ppt.py].  The encoder wires a
    tokenizer, a positional embedder, a transformer encoder and a pooling
    stage into one forward pass and fuses the pooled point embedding with
    auxiliary state vectors.

    Python integers are [Z]; tensors carry their shape and their elements in
    row-major order; a Python exception is an [error]; the process-wide
    random generator of the tensor framework is an explicit state that every
    call threads. *)

From Stdlib Require Import ZArith List String Bool Lia QArith.
Import ListNotations.

Local Open Scope string_scope.
Local Open Scope Z_scope.
Local Open Scope list_scope.

Set Implicit Arguments.

(** ** Exceptions and the computation monad *)

Inductive error : Type :=
| AssertionError
| KeyError
| IndexError
| TypeError
| AttributeError
| RuntimeError.

Inductive result (A : Type) : Type :=
| Ok (a : A)
| Err (e : error).

Arguments Ok {A} a.
Arguments Err {A} e.

Definition rbind {A B : Type} (x : result A) (f : A -> result B) : result B :=
  match x with
  | Ok a => f a
  | Err e => Err e
  end.

(** Integer indexing of a tuple, [t[0]]. *)
Definition getitem0 (t : list Z) : result Z :=
  match t with
  | [] => Err IndexError
  | d :: _ => Ok d
  end.

(** [shape[0]] where [shape] may be [None]. *)
Definition shape0 (shape : option (list Z)) : result Z :=
  match shape with
  | None => Err TypeError
  | Some t => getitem0 t
  end.

Module PyDict.
(** An insertion-ordered mapping with string keys. *)
Section Assoc.
Variable V : Type.

Definition t := list (string * V).

Fixpoint get (d : t) (k : string) : option V :=
  match d with
  | [] => None
  | (k', v) :: d' => if String.eqb k' k then Some v else get d' k
  end.

(** [d[k]] *)
Definition getitem (d : t) (k : string) : result V :=
  match get d k with
  | Some v => Ok v
  | None => Err KeyError
  end.

(** [[v for name, v in d.items() if name != k]] *)
Definition values_except (k : string) (d : t) : list V :=
  map snd (filter (fun kv => negb (String.eqb (fst kv) k)) d).
End Assoc.
End PyDict.

(** ** Observation spaces *)

(** A space of [gymnasium.spaces]: a point-cloud space, a mapping of named
    sub-spaces, or any other space.  [Space.shape] is a tuple of integers or
    [None]; a mapping has none. *)
#[local] Unset Elimination Schemes.
Inductive Space : Type :=
| PointCloudSpace (shape : option (list Z))
| Dict (spaces : list (string * Space))
| OtherSpace (shape : option (list Z)).
#[local] Set Elimination Schemes.

Definition space_shape (s : Space) : option (list Z) :=
  match s with
  | PointCloudSpace sh => sh
  | Dict _ => None
  | OtherSpace sh => sh
  end.

(** [isinstance(s, PointCloudSpace)] *)
Definition is_PointCloudSpace (s : Space) : bool :=
  match s with
  | PointCloudSpace _ => true
  | _ => false
  end.

(** [isinstance(s, spaces.Dict)] *)
Definition is_Dict (s : Space) : bool :=
  match s with
  | Dict _ => true
  | _ => false
  end.

(** [sum(space.shape[0] for space in ss)], left to right. *)
Fixpoint sum_shape0 (ss : list Space) : result Z :=
  match ss with
  | [] => Ok 0
  | s :: ss' =>
      rbind (shape0 (space_shape s)) (fun d =>
      rbind (sum_shape0 ss') (fun n => Ok (d + n)))
  end.

(** ** The tensor framework *)

(** Tensor elements are floating-point numbers; they are left abstract,
    with the two constants and the two operations the encoder's own layers
    use. *)
Class Numeric : Type := {
  scalar : Type;
  s0 : scalar;
  s1 : scalar;
  sadd : scalar -> scalar -> scalar;
  smul : scalar -> scalar -> scalar
}.

(** The state of the framework's random generator with the samplers behind
    [torch.nn.init]: each returns the requested number of elements and the
    advanced state.  [sample_uniform fan_in] stands for the uniform law on
    [(-1/sqrt fan_in, 1/sqrt fan_in)]. *)
Class Random {N : Numeric} : Type := {
  rng : Type;
  sample_trunc_normal : nat -> rng -> list scalar * rng;
  sample_kaiming_uniform : nat -> rng -> list scalar * rng;
  sample_uniform : Z -> nat -> rng -> list scalar * rng
}.

Section Framework.

Context {N : Numeric} {R : Random}.

(** A computation may raise, and may advance the random generator. *)
Definition M (A : Type) : Type := rng -> result (A * rng).

Definition ret {A : Type} (a : A) : M A := fun r => Ok (a, r).

Definition raise {A : Type} (e : error) : M A := fun _ => Err e.

Definition bind {A B : Type} (m : M A) (f : A -> M B) : M B :=
  fun r =>
    match m r with
    | Ok (a, r') => f a r'
    | Err e => Err e
    end.

Definition lift {A : Type} (x : result A) : M A :=
  fun r =>
    match x with
    | Ok a => Ok (a, r)
    | Err e => Err e
    end.

(** What a computation returned, the generator state forgotten. *)
Definition value {A : Type} (x : result (A * rng)) : result A :=
  match x with
  | Ok (a, _) => Ok a
  | Err e => Err e
  end.

(** ** Tensors *)

Record Tensor : Type := mkTensor {
  shape : list Z;
  data : list scalar
}.

Definition numel (sh : list Z) : Z := fold_right Z.mul 1 sh.

(** [(lead, w)] when the shape is [lead ++ [w]]. *)
Fixpoint split_last (sh : list Z) : option (list Z * Z) :=
  match sh with
  | [] => None
  | [w] => Some ([], w)
  | d :: sh' =>
      match split_last sh' with
      | Some (lead, w) => Some (d :: lead, w)
      | None => None
      end
  end.

Definition shape_eqb (a b : list Z) : bool :=
  if list_eq_dec Z.eq_dec a b then true else false.

(** The [i]-th row of width [w] of a row-major element list. *)
Definition row (w : Z) (xs : list scalar) (i : nat) : list scalar :=
  firstn (Z.to_nat w) (skipn (i * Z.to_nat w) xs).

Definition last_dim (t : Tensor) : Z :=
  match split_last (shape t) with
  | Some (_, w) => w
  | None => 0
  end.

(** [tensor.fill_(v)] as done by [nn.init.constant_]. *)
Definition constant_ (t : Tensor) (v : scalar) : Tensor :=
  mkTensor (shape t) (map (fun _ => v) (data t)).

Definition filled (v : scalar) (t : Tensor) : Prop :=
  Forall (fun x => x = v) (data t).

(** A batched tree of arrays: a tensor, or a named mapping of trees. *)
#[local] Unset Elimination Schemes.
Inductive ArrayTree : Type :=
| Leaf (t : Tensor)
| Node (items : list (string * ArrayTree)).
#[local] Set Elimination Schemes.

(** [tree[key]] *)
Definition tree_getitem (tree : ArrayTree) (key : string) : result ArrayTree :=
  match tree with
  | Node items => PyDict.getitem items key
  | Leaf _ => Err IndexError
  end.

(** [tree.items()] *)
Definition tree_items (tree : ArrayTree) : result (list (string * ArrayTree)) :=
  match tree with
  | Node items => Ok items
  | Leaf _ => Err AttributeError
  end.

(** The framework accepts only tensors in a sequence to concatenate. *)
Fixpoint as_tensors (xs : list ArrayTree) : result (list Tensor) :=
  match xs with
  | [] => Ok []
  | Leaf t :: xs' => rbind (as_tensors xs') (fun ts => Ok (t :: ts))
  | Node _ :: _ => Err TypeError
  end.

(** Whether [t] agrees with the leading dimensions [lead]. *)
Definition same_lead (lead : list Z) (t : Tensor) : bool :=
  match split_last (shape t) with
  | Some (lead', _) => shape_eqb lead lead'
  | None => false
  end.

(** [torch.concatenate(xs, dim=-1)]: the sequence must not be empty;
    one-dimensional empty tensors are skipped; the others must have at
    least one dimension and agree on all but the last one. *)
Definition torch_concatenate (xs : list ArrayTree) : result Tensor :=
  rbind (as_tensors xs) (fun ts =>
    match ts with
    | [] => Err RuntimeError
    | _ :: _ =>
        match filter (fun t => negb (shape_eqb (shape t) [0])) ts with
        | [] => Ok (mkTensor [0] [])
        | t :: rest =>
            match split_last (shape t) with
            | None => Err RuntimeError
            | Some (lead, _) =>
                if forallb (same_lead lead) rest
                then
                  Ok (mkTensor
                        (lead ++ [fold_right Z.add 0 (map last_dim (t :: rest))])
                        (flat_map
                           (fun i => flat_map (fun u => row (last_dim u) (data u) i)
                                              (t :: rest))
                           (seq 0 (Z.to_nat (numel lead)))))
                else Err RuntimeError
            end
        end
    end).

(** ** Layers *)

(** An initialiser fills a tensor in place with freshly drawn elements
    and advances the generator. *)
Definition fill_ (sample : nat -> rng -> list scalar * rng) (t : Tensor)
  : M Tensor :=
  fun r =>
    let (d, r') := sample (List.length (data t)) r in
    Ok (mkTensor (shape t) d, r').

Definition trunc_normal_ : Tensor -> M Tensor := fill_ sample_trunc_normal.
Definition kaiming_uniform_ : Tensor -> M Tensor := fill_ sample_kaiming_uniform.
Definition uniform_ (fan_in : Z) : Tensor -> M Tensor :=
  fill_ (sample_uniform fan_in).

Notation "x <- c ;; k" := (bind c (fun x => k))
  (at level 100, c at next level, right associativity).

Record Linear : Type := mkLinear {
  in_features : Z;
  out_features : Z;
  weight : Tensor;
  bias : option Tensor
}.

(** A module of the framework: a linear layer, a layer normalisation
    (whose scale and bias are absent without an element-wise affine
    map), or any other module with its integer attributes, its own
    parameters and its child modules in registration order. *)
#[local] Unset Elimination Schemes.
Inductive Module : Type :=
| nn_Linear (l : Linear)
| nn_LayerNorm (ln_weight ln_bias : option Tensor)
| nn_Module (attrs : list (string * Z)) (params : list (string * Tensor))
            (children : list Module).
#[local] Set Elimination Schemes.

(** [torch.empty(shape)] *)
Definition torch_empty (sh : list Z) : Tensor :=
  mkTensor sh (repeat s0 (Z.to_nat (numel sh))).

(** [nn.Linear(in_features, out_features)]: the weight is drawn by the
    Kaiming-uniform rule and the bias uniformly within the bound set by
    the fan-in (the bound is 0 when the fan-in is 0). *)
Definition new_Linear (i o : Z) : M Linear :=
  if (i <? 0) || (o <? 0) then raise RuntimeError
  else
    w <- kaiming_uniform_ (torch_empty [o; i]) ;;
    b <- (if 0 <? i then uniform_ i (torch_empty [o])
          else ret (constant_ (torch_empty [o]) s0)) ;;
    ret (mkLinear i o w (Some b)).

Definition dot (xs ws : list scalar) : scalar :=
  fold_left (fun acc p => sadd acc (smul (fst p) (snd p))) (combine xs ws) s0.

(** One output row of [x @ W.T + b]. *)
Definition linear_row (o i : Z) (W : Tensor) (b : option Tensor)
           (xs : list scalar) : list scalar :=
  map (fun j =>
         let y := dot xs (row i (data W) j) in
         match b with
         | Some bt => sadd y (nth j (data bt) s0)
         | None => y
         end)
      (seq 0 (Z.to_nat o)).

(** [Linear.forward]: the last dimension of the input must be the
    weight's second dimension. *)
Definition Linear_forward (l : Linear) (x : Tensor) : result Tensor :=
  match shape (weight l) with
  | [o; i] =>
      match split_last (shape x) with
      | Some (lead, w) =>
          if w =? i
          then Ok (mkTensor (lead ++ [o])
                     (flat_map
                        (fun r => linear_row o i (weight l) (bias l)
                                             (row i (data x) r))
                        (seq 0 (Z.to_nat (numel lead)))))
          else Err RuntimeError
      | None => Err RuntimeError
      end
  | _ => Err RuntimeError
  end.

(** [module.<name>] for an integer attribute. *)
Definition module_attr (m : Module) (name : string) : result Z :=
  match m with
  | nn_Module attrs _ _ =>
      match PyDict.get attrs name with
      | Some v => Ok v
      | None => Err AttributeError
      end
  | _ => Err AttributeError
  end.

(** [PointPatchTransformer._init_weights] *)
Definition _init_weights (m : Module) : M Module :=
  match m with
  | nn_Linear l =>
      w <- trunc_normal_ (weight l) ;;
      ret (nn_Linear
             (mkLinear (in_features l) (out_features l) w
                       (match bias l with
                        | Some b => Some (constant_ b s0)
                        | None => None
                        end)))
  | nn_LayerNorm w b =>
      match b with
      | None => raise AttributeError
      | Some bt =>
          match w with
          | None => raise AttributeError
          | Some wt =>
              ret (nn_LayerNorm (Some (constant_ wt s1)) (Some (constant_ bt s0)))
          end
      end
  | nn_Module _ _ _ => ret m
  end.

Section MapM.
Variables A B : Type.
Variable f : A -> M B.

(** Run [f] over a list, left to right. *)
Fixpoint mapM (l : list A) : M (list B) :=
  match l with
  | [] => ret []
  | a :: l' =>
      b <- f a ;;
      bs <- mapM l' ;;
      ret (b :: bs)
  end.
End MapM.

(** [nn.Module.apply]: the children first, in order, then the module. *)
Fixpoint apply (fn : Module -> M Module) (m : Module) : M Module :=
  match m with
  | nn_Module attrs params children =>
      cs <- mapM (apply fn) children ;;
      fn (nn_Module attrs params cs)
  | _ => fn m
  end.

(** Every linear layer of a module tree, and the (scale, bias) pair of
    every layer normalisation, in traversal order. *)
Fixpoint linears (m : Module) : list Linear :=
  match m with
  | nn_Linear l => [l]
  | nn_LayerNorm _ _ => []
  | nn_Module _ _ children => flat_map linears children
  end.

Fixpoint layer_norms (m : Module) : list (option Tensor * option Tensor) :=
  match m with
  | nn_Linear _ => []
  | nn_LayerNorm w b => [(w, b)]
  | nn_Module _ _ children => flat_map layer_norms children
  end.

(** The bias of a linear layer is exactly 0 when there is one. *)
Definition zero_bias (l : Linear) : Prop :=
  match bias l with
  | Some b => filled s0 b
  | None => True
  end.

(** The bias of a normalisation is 0 and its scale exactly 1. *)
Definition unit_norm (wb : option Tensor * option Tensor) : Prop :=
  match wb with
  | (Some w, Some b) => filled s1 w /\ filled s0 b
  | _ => False
  end.

(** A normalisation that has both a scale and a bias. *)
Definition affine_norm (wb : option Tensor * option Tensor) : bool :=
  match wb with
  | (Some _, Some _) => true
  | _ => false
  end.

Definition affine (m : Module) : bool := forallb affine_norm (layer_norms m).

(** What one initialisation pass leaves behind. *)
Definition initialised (m : Module) : Prop :=
  Forall zero_bias (linears m) /\ Forall unit_norm (layer_norms m).

(** A module built by a factory and then passed through the
    initialiser. *)
Definition initialised_from (f : M Module) (m : Module) : Prop :=
  exists m0 r0 r1 r2 r3,
    f r0 = Ok (m0, r1) /\ apply _init_weights m0 r2 = Ok (m, r3).

(** Rows of a common batch size. *)
Definition rows (B : Z) (ts : list Tensor) (ws : list Z) : Prop :=
  Forall2 (fun t w => shape t = [B; w]) ts ws.

(** A tensor with its elements forgotten. *)
Definition erase (t : Tensor) : Tensor := mkTensor (shape t) [].

(** A module tree with the elements of every linear and normalisation
    parameter forgotten: the classes, the attributes, the shapes, which
    biases exist, and the parameters other modules own themselves. *)
Fixpoint skeleton (m : Module) : Module :=
  match m with
  | nn_Linear l =>
      nn_Linear (mkLinear (in_features l) (out_features l) (erase (weight l))
                          (option_map erase (bias l)))
  | nn_LayerNorm w b => nn_LayerNorm (option_map erase w) (option_map erase b)
  | nn_Module attrs params children =>
      nn_Module attrs params (map skeleton children)
  end.

End Framework.

Arguments Tensor {N}.
Arguments ArrayTree {N}.
Arguments Linear {N}.
Arguments Module {N}.

Declare Scope monad_scope.
Notation "x <- c ;; k" := (bind c (fun x => k))
  (at level 100, c at next level, right associativity) : monad_scope.
Notation "' p <- c ;; k" := (bind c (fun x => match x with p => k end))
  (at level 100, p pattern, c at next level, right associativity) : monad_scope.

(** ** Collaborators

    The pooling class, the point-cloud decomposition and what calling a
    tokenizer, a positional embedder, a transformer encoder or a pooling
    module computes are defined in other modules of the repository. *)
Class Collaborators {N : Numeric} {R : Random} : Type := {
  SequencePooling : Z -> M Module;
  dict_to_batched_data : ArrayTree -> M (Tensor * Tensor * option Tensor);
  call_tokenizer :
    Module -> Tensor -> Tensor -> option Tensor -> M (Tensor * Tensor * Tensor);
  call_pos_embedder : Module -> Tensor -> M Tensor;
  call_transformer_encoder : Module -> Tensor -> Tensor -> M Tensor;
  call_pooling : Module -> Tensor -> M Tensor
}.

Section Encoder.

Context {N : Numeric} {R : Random} {C : Collaborators}.

Local Open Scope monad_scope.

(** ** The encoder *)

Record PointPatchTransformer : Type := mkPPT {
  obs_is_dict : bool;
  tokenizer : Module;
  pos_embedder : Module;
  transformer_encoder : Module;
  pooling : Module;
  state_encoder : option Linear;
  state_dim : Z
}.

(** [PointPatchTransformer.__init__] *)
Definition __init__ (obs_space : Space)
           (tokenizer_f : Z -> Z -> M Module)
           (pos_embedder_f : Z -> M Module)
           (transformer_encoder_f : Z -> M Module)
           (embed_dim : Z) (state_embed_dim : option Z)
  : M PointPatchTransformer :=
  point_space <- lift (match obs_space with
                       | Dict spaces => PyDict.getitem spaces "points"
                       | _ => Ok obs_space
                       end) ;;
  _ <- (if is_PointCloudSpace point_space then ret tt
        else raise AssertionError) ;;
  point_dim <- lift (shape0 (space_shape point_space)) ;;
  tok <- tokenizer_f point_dim embed_dim ;;
  pe <- pos_embedder_f embed_dim ;;
  te <- transformer_encoder_f embed_dim ;;
  pool <- SequencePooling embed_dim ;;
  tok <- apply _init_weights tok ;;
  pe <- apply _init_weights pe ;;
  te <- apply _init_weights te ;;
  pool <- apply _init_weights pool ;;
  match obs_space with
  | Dict spaces =>
      state_dim <- lift (sum_shape0 (PyDict.values_except "points" spaces)) ;;
      match state_embed_dim with
      | Some d =>
          enc <- new_Linear state_dim d ;;
          ret (mkPPT true tok pe te pool (Some enc) d)
      | None => ret (mkPPT true tok pe te pool None state_dim)
      end
  | _ => ret (mkPPT false tok pe te pool None 0)
  end.

(** The last step of the constructor: the state width and the optional
    projection, once the four components are built and initialised. *)
Definition record_state (obs_space : Space) (state_embed_dim : option Z)
           (tok pe te pool : Module) : M PointPatchTransformer :=
  match obs_space with
  | Dict spaces =>
      state_dim <- lift (sum_shape0 (PyDict.values_except "points" spaces)) ;;
      match state_embed_dim with
      | Some d =>
          enc <- new_Linear state_dim d ;;
          ret (mkPPT true tok pe te pool (Some enc) d)
      | None => ret (mkPPT true tok pe te pool None state_dim)
      end
  | _ => ret (mkPPT false tok pe te pool None 0)
  end.

(** [PointPatchTransformer.forward] *)
Definition forward (self : PointPatchTransformer) (observation : ArrayTree)
  : M Tensor :=
  point_cloud <- lift (if obs_is_dict self
                       then tree_getitem observation "points"
                       else Ok observation) ;;
  ' (pos, batch, color) <- dict_to_batched_data point_cloud ;;
  ' (x, _, center_points) <- call_tokenizer (tokenizer self) pos batch color ;;
  pos <- call_pos_embedder (pos_embedder self) center_points ;;
  x <- call_transformer_encoder (transformer_encoder self) x pos ;;
  encoder_out <- call_pooling (pooling self) x ;;
  if obs_is_dict self
  then
    items <- lift (tree_items observation) ;;
    state <- match state_encoder self with
             | Some enc =>
                 state <- lift (torch_concatenate
                                  (PyDict.values_except "points" items)) ;;
                 state <- lift (Linear_forward enc state) ;;
                 ret [Leaf state]
             | None => ret (PyDict.values_except "points" items)
             end ;;
    lift (torch_concatenate (Leaf encoder_out :: state))
  else ret encoder_out.

(** The point-embedding pipeline: the decomposition, the tokenizer, the
    positional embedder on the patch centres, the transformer encoder on
    the tokens and the positional embeddings, and the pooling. *)
Definition encodes (self : PointPatchTransformer) (point_cloud : ArrayTree)
           (r : rng) (encoder_out : Tensor) (r' : rng) : Prop :=
  exists pos batch color x aux center_points p y r1 r2 r3 r4,
    dict_to_batched_data point_cloud r = Ok ((pos, batch, color), r1)
    /\ call_tokenizer (tokenizer self) pos batch color r1
       = Ok ((x, aux, center_points), r2)
    /\ call_pos_embedder (pos_embedder self) center_points r2 = Ok (p, r3)
    /\ call_transformer_encoder (transformer_encoder self) x p r3 = Ok (y, r4)
    /\ call_pooling (pooling self) y r4 = Ok (encoder_out, r').

(** The forward pass after the pooling stage. *)
Definition fuse (self : PointPatchTransformer) (observation : ArrayTree)
           (encoder_out : Tensor) : result Tensor :=
  if obs_is_dict self
  then
    rbind (tree_items observation) (fun items =>
    rbind (match state_encoder self with
           | Some enc =>
               rbind (torch_concatenate (PyDict.values_except "points" items))
                     (fun state =>
               rbind (Linear_forward enc state) (fun state => Ok [Leaf state]))
           | None => Ok (PyDict.values_except "points" items)
           end) (fun state =>
    torch_concatenate (Leaf encoder_out :: state)))
  else Ok encoder_out.

(** The [embed_dim] property. *)
Definition embed_dim (self : PointPatchTransformer) : result Z :=
  rbind (module_attr (transformer_encoder self) "embed_dim") (fun e =>
  Ok (e + state_dim self)).

(** The layers the encoder owns. *)
Definition components (self : PointPatchTransformer) : list Module :=
  [tokenizer self; pos_embedder self; transformer_encoder self; pooling self].

Definition owned_linears (self : PointPatchTransformer) : list Linear :=
  flat_map linears (components self)
  ++ match state_encoder self with
     | Some enc => [enc]
     | None => []
     end.

Definition owned_layer_norms (self : PointPatchTransformer)
  : list (option Tensor * option Tensor) :=
  flat_map layer_norms (components self).

(** ** Observation spaces and the observations that conform to them *)

(** The point-cloud sub-space: the space itself, or its ["points"] entry. *)
Definition point_subspace (obs_space : Space) : option Space :=
  match obs_space with
  | Dict spaces => PyDict.get spaces "points"
  | _ => Some obs_space
  end.

(** The auxiliary sub-spaces, in declared order. *)
Definition aux_spaces (obs_space : Space) : list Space :=
  match obs_space with
  | Dict spaces => PyDict.values_except "points" spaces
  | _ => []
  end.

(** A space of vectors of some width. *)
Definition vector_space (s : Space) : bool :=
  match s with
  | OtherSpace (Some [w]) => 0 <=? w
  | _ => false
  end.

(** A space of arrays of some shape: neither a point cloud nor a mapping. *)
Definition array_space (s : Space) : bool :=
  match s with
  | OtherSpace _ => true
  | _ => false
  end.

(** The first dimension of a space's shape, 0 when it has none. *)
Definition first_dim (s : Space) : Z :=
  match space_shape s with
  | Some (d :: _) => d
  | _ => 0
  end.

Definition has_first_dim (s : Space) : bool :=
  match space_shape s with
  | Some (d :: _) => 0 <=? d
  | _ => false
  end.

(** The sum of the first dimensions. *)
Definition first_dims (ss : list Space) : Z :=
  fold_right Z.add 0 (map first_dim ss).

Section Conformance.

(** Which array trees hold a batch of [B] point clouds is decided by
    the point-cloud space class. *)
Variable cloud : Z -> ArrayTree -> Prop.

(** A batch of [B] observations of a space. *)
#[local] Unset Elimination Schemes.
Inductive conforms (B : Z) : Space -> ArrayTree -> Prop :=
| conforms_cloud : forall sh pc,
    cloud B pc -> conforms B (PointCloudSpace sh) pc
| conforms_array : forall sh t,
    shape t = B :: sh -> conforms B (OtherSpace (Some sh)) (Leaf t)
| conforms_dict : forall spaces items,
    Forall2 (fun e i => fst e = fst i /\ conforms B (snd e) (snd i))
            spaces items ->
    conforms B (Dict spaces) (Node items).
#[local] Set Elimination Schemes.

(** Which (positions, batch index, colours) triples describe a batch of
    [B] point clouds is decided by the decomposition utility. *)
Variable batched : Z -> Tensor -> Tensor -> option Tensor -> Prop.

(** The contracts of the collaborators an encoder owns, for batches of
    [B] samples, embedding width [E] and point dimension [pd]: tokens
    are [B] sequences of [n] vectors of width [E]. *)
Record contracts (self : PointPatchTransformer) (B E pd : Z) : Prop := {
  decomposition_contract : forall pc r,
    cloud B pc ->
    exists pos batch color r',
      dict_to_batched_data pc r = Ok ((pos, batch, color), r')
      /\ batched B pos batch color;
  tokenizer_contract : forall pos batch color r,
    batched B pos batch color ->
    exists x aux centers r' n,
      call_tokenizer (tokenizer self) pos batch color r
      = Ok ((x, aux, centers), r')
      /\ shape x = [B; n; E] /\ shape centers = [B; n; pd];
  pos_embedder_contract : forall centers n r,
    shape centers = [B; n; pd] ->
    exists p r',
      call_pos_embedder (pos_embedder self) centers r = Ok (p, r')
      /\ shape p = [B; n; E];
  transformer_encoder_contract : forall x p n r,
    shape x = [B; n; E] -> shape p = [B; n; E] ->
    exists y r',
      call_transformer_encoder (transformer_encoder self) x p r = Ok (y, r')
      /\ shape y = shape x;
  transformer_encoder_width :
    module_attr (transformer_encoder self) "embed_dim" = Ok E;
  pooling_contract : forall x n r,
    shape x = [B; n; E] ->
    exists out r',
      call_pooling (pooling self) x r = Ok (out, r')
      /\ shape out = [B; E]
}.

End Conformance.

(** A batch of arrays of a space with at least one dimension. *)
Definition batch_of (B : Z) (t : Tensor) (s : Space) : Prop :=
  exists d sh, space_shape s = Some (d :: sh) /\ shape t = B :: d :: sh.

(** The contract of a factory: it returns a module whose normalisation
    layers have a scale and a bias. *)
Definition returns_module (f : M Module) : Prop :=
  forall r, exists m r', f r = Ok (m, r') /\ affine m = true.

Record factory_contracts (tokenizer_f : Z -> Z -> M Module)
       (pos_embedder_f transformer_encoder_f : Z -> M Module)
       (pd E : Z) : Prop := {
  tokenizer_returns : returns_module (tokenizer_f pd E);
  pos_embedder_returns : returns_module (pos_embedder_f E);
  transformer_encoder_returns : returns_module (transformer_encoder_f E);
  pooling_returns : returns_module (SequencePooling E)
}.

(** The factories honour their contract at the point dimension of the
    space's point-cloud sub-space. *)
Definition factories_ok (obs_space : Space)
           (tokenizer_f : Z -> Z -> M Module)
           (pos_embedder_f transformer_encoder_f : Z -> M Module)
           (E : Z) : Prop :=
  forall ps pd,
    point_subspace obs_space = Some ps ->
    shape0 (space_shape ps) = Ok pd ->
    factory_contracts tokenizer_f pos_embedder_f transformer_encoder_f pd E.

(** Whether the collaborators' results depend on the random generator. *)
Record deterministic (self : PointPatchTransformer) : Prop := {
  decomposition_det : forall pc r1 r2,
    value (dict_to_batched_data pc r1) = value (dict_to_batched_data pc r2);
  tokenizer_det : forall pos batch color r1 r2,
    value (call_tokenizer (tokenizer self) pos batch color r1)
    = value (call_tokenizer (tokenizer self) pos batch color r2);
  pos_embedder_det : forall c r1 r2,
    value (call_pos_embedder (pos_embedder self) c r1)
    = value (call_pos_embedder (pos_embedder self) c r2);
  transformer_encoder_det : forall x p r1 r2,
    value (call_transformer_encoder (transformer_encoder self) x p r1)
    = value (call_transformer_encoder (transformer_encoder self) x p r2);
  pooling_det : forall x r1 r2,
    value (call_pooling (pooling self) x r1)
    = value (call_pooling (pooling self) x r2)
}.

(** A tokenizer's result without its secondary output. *)
Definition drop_secondary (x : result (Tensor * Tensor * Tensor * rng))
  : result (Tensor * Tensor * rng) :=
  match x with
  | Ok ((tokens, _, centers), r) => Ok ((tokens, centers), r)
  | Err e => Err e
  end.

End Encoder.

(** ** A small instance

    Rational elements, a draw counter as generator state, and collaborators
    that return tensors of the contracted shapes. *)
Module Demo.

#[export] Instance numeric : Numeric := {
  scalar := Q;
  s0 := 0%Q;
  s1 := 1%Q;
  sadd := Qplus;
  smul := Qmult
}.

#[export] Instance random : Random := {
  rng := nat;
  sample_trunc_normal := fun n r => (repeat (1 # 50)%Q n, (r + n)%nat);
  sample_kaiming_uniform := fun n r => (repeat (1 # 8)%Q n, (r + n)%nat);
  sample_uniform := fun _ n r => (repeat (1 # 4)%Q n, (r + n)%nat)
}.

Local Open Scope monad_scope.

Definition zeros (sh : list Z) : Tensor := torch_empty sh.

Definition layer_norm (E : Z) : Module :=
  nn_LayerNorm (Some (constant_ (zeros [E]) (1 # 2)%Q))
               (Some (constant_ (zeros [E]) (1 # 3)%Q)).

Definition tokenizer_f (point_dim embed_dim : Z) : M Module :=
  l <- new_Linear point_dim embed_dim ;;
  ret (nn_Module [("embed_dim", embed_dim); ("point_dim", point_dim)] []
                 [nn_Linear l; layer_norm embed_dim]).

Definition pos_embedder_f (token_dim : Z) : M Module :=
  l <- new_Linear 3 token_dim ;;
  ret (nn_Module [("token_dim", token_dim)] [] [nn_Linear l]).

Definition transformer_encoder_f (embed_dim : Z) : M Module :=
  l <- new_Linear embed_dim embed_dim ;;
  ret (nn_Module [("embed_dim", embed_dim)] []
                 [nn_Module [] [] [layer_norm embed_dim; nn_Linear l];
                  layer_norm embed_dim]).

(** A transformer-encoder factory whose normalisation has no affine map. *)
Definition plain_norm_f (embed_dim : Z) : M Module :=
  ret (nn_Module [("embed_dim", embed_dim)] [] [nn_LayerNorm None None]).

Definition attr2 (m : Module) (a b : string) : option (Z * Z) :=
  match m with
  | nn_Module attrs _ _ =>
      match PyDict.get attrs a, PyDict.get attrs b with
      | Some x, Some y => Some (x, y)
      | _, _ => None
      end
  | _ => None
  end.

(** The decomposition of a point-cloud tree. *)
Definition decompose (pc : ArrayTree)
  : result (Tensor * Tensor * option Tensor) :=
  match pc with
  | Node [("pos", Leaf pos); ("ptr", Leaf ptr)] => Ok (pos, ptr, None)
  | _ => Err KeyError
  end.

Definition tokenize (m : Module) (pos batch : Tensor) (color : option Tensor)
  : result (Tensor * Tensor * Tensor) :=
  match attr2 m "embed_dim" "point_dim", shape batch with
  | Some (E, pd), [B] => Ok (zeros [B; 2; E], zeros [B; 2], zeros [B; 2; pd])
  | _, _ => Err RuntimeError
  end.

Definition embed_positions (m : Module) (centers : Tensor) : result Tensor :=
  match attr2 m "token_dim" "token_dim", shape centers with
  | Some (E, _), [B; n; _] => Ok (zeros [B; n; E])
  | _, _ => Err RuntimeError
  end.

Definition contextualise (m : Module) (x p : Tensor) : result Tensor :=
  if shape_eqb (shape x) (shape p) then Ok x else Err RuntimeError.

Definition pool (m : Module) (x : Tensor) : result Tensor :=
  match shape x with
  | [B; n; E] => Ok (zeros [B; E])
  | _ => Err RuntimeError
  end.

#[export] Instance collaborators : Collaborators := {
  SequencePooling := fun embed_dim =>
    l <- new_Linear embed_dim 1 ;;
    ret (nn_Module [("embed_dim", embed_dim)] [] [nn_Linear l]);
  dict_to_batched_data := fun pc => lift (decompose pc);
  call_tokenizer := fun m pos batch color => lift (tokenize m pos batch color);
  call_pos_embedder := fun m centers => lift (embed_positions m centers);
  call_transformer_encoder := fun m x p => lift (contextualise m x p);
  call_pooling := fun m x => lift (pool m x)
}.

(** A batch of [B] point clouds: positions, and one offset per sample. *)
Definition cloud (B : Z) (pc : ArrayTree) : Prop :=
  exists pos ptr,
    pc = Node [("pos", Leaf pos); ("ptr", Leaf ptr)] /\ shape ptr = [B].

Definition batched (B : Z) (pos batch : Tensor) (color : option Tensor)
  : Prop :=
  shape batch = [B].

Definition points (B : Z) : ArrayTree :=
  Node [("pos", Leaf (zeros [5; 3])); ("ptr", Leaf (zeros [B]))].

Definition bare_space : Space := PointCloudSpace (Some [3]).

Definition composite_space : Space :=
  Dict [("gripper", OtherSpace (Some [3]));
        ("points", PointCloudSpace (Some [3]));
        ("joints", OtherSpace (Some [5]))].

Definition composite_obs (B : Z) : ArrayTree :=
  Node [("gripper", Leaf (zeros [B; 3]));
        ("points", points B);
        ("joints", Leaf (zeros [B; 5]))].


Definition image_space : Space :=
  Dict [("points", PointCloudSpace (Some [3])); ("image", OtherSpace (Some [2; 3]))].

(** A dict space without a ["points"] entry. *)
Definition no_points : list (string * Space) :=
  [("gripper", OtherSpace (Some [3]))].

Definition construct (obs_space : Space) (state_embed_dim : option Z)
  : result (PointPatchTransformer * rng) :=
  __init__ obs_space tokenizer_f pos_embedder_f transformer_encoder_f 4
           state_embed_dim 0%nat.

(** The encoder a construction returns, if it returns one. *)
Definition built (x : result (PointPatchTransformer * rng))
  : PointPatchTransformer :=
  match x with
  | Ok (self, _) => self
  | Err _ =>
      mkPPT false (nn_Module [] [] []) (nn_Module [] [] [])
            (nn_Module [] [] []) (nn_Module [] [] []) None 0
  end.

Definition bare_encoder : PointPatchTransformer :=
  Eval vm_compute in built (construct bare_space None).

Definition raw_encoder : PointPatchTransformer :=
  Eval vm_compute in built (construct composite_space None).

Definition projected_encoder : PointPatchTransformer :=
  Eval vm_compute in built (construct composite_space (Some 16)).

Definition image_encoder : PointPatchTransformer :=
  Eval vm_compute in built (construct image_space None).




(** The same collaborators with a tokenizer that returns another secondary
    output. *)
Definition masked : Collaborators := {|
  SequencePooling := SequencePooling;
  dict_to_batched_data := dict_to_batched_data;
  call_tokenizer := fun m pos batch color =>
    lift (rbind (tokenize m pos batch color) (fun xyz =>
          match xyz with
          | (x, _, centers) => Ok (x, constant_ x (1 # 1)%Q, centers)
          end));
  call_pos_embedder := call_pos_embedder;
  call_transformer_encoder := call_transformer_encoder;
  call_pooling := call_pooling
|}.

(** A module of another class that owns a parameter of its own, over a
    normalisation and a linear layer. *)
Definition class_token_module : Module :=
  nn_Module [("embed_dim", 4)] [("cls_token", constant_ (zeros [4]) (1 # 7)%Q)]
            [layer_norm 4;
             nn_Linear (mkLinear 4 2 (constant_ (zeros [2; 4]) (1 # 5)%Q) None)].

(** Observations that do not conform to [composite_space]: one with a
    field the space does not declare, one with a field missing. *)
Definition wide_obs (B : Z) : ArrayTree :=
  Node [("gripper", Leaf (zeros [B; 3]));
        ("points", points B);
        ("joints", Leaf (zeros [B; 5]));
        ("extra", Leaf (zeros [B; 2]))].


End Demo.

(** * Properties *)

Section MonadLaws.

Context {N : Numeric} {R : Random}.

Lemma bind_Ok (A B : Type) (m : M A) (f : A -> M B) r b r' :
  bind m f r = Ok (b, r') <->
  exists a r1, m r = Ok (a, r1) /\ f a r1 = Ok (b, r').
Proof.
  unfold bind. split.
  - destruct (m r) as [[a r1]|e]; [|discriminate].
    intros H. exists a, r1. auto.
  - intros (a & r1 & -> & H). exact H.
Qed.

Lemma bind_step (A B : Type) (m : M A) (f : A -> M B) r a r1 :
  m r = Ok (a, r1) -> bind m f r = f a r1.
Proof. unfold bind. intros ->. reflexivity. Qed.

Lemma bind_fail (A B : Type) (m : M A) (f : A -> M B) r e :
  m r = Err e -> bind m f r = Err e.
Proof. unfold bind. intros ->. reflexivity. Qed.

Lemma lift_Ok (A : Type) (x : result A) r a r' :
  lift x r = Ok (a, r') <-> x = Ok a /\ r' = r.
Proof.
  unfold lift. destruct x; split.
  - intros H. inversion H. auto.
  - intros [H ->]. inversion H. reflexivity.
  - discriminate.
  - intros [H _]. discriminate.
Qed.

Lemma fill_shape sample (t t' : Tensor) r r' :
  fill_ sample t r = Ok (t', r') -> shape t' = shape t.
Proof.
  unfold fill_. destruct (sample _ r). intros H. inversion H. reflexivity.
Qed.

Lemma fill_returns sample (t : Tensor) r :
  exists t' r', fill_ sample t r = Ok (t', r').
Proof. unfold fill_. destruct (sample _ r). eauto. Qed.

Lemma filled_constant (t : Tensor) v : filled v (constant_ t v).
Proof.
  unfold filled, constant_. simpl.
  induction (data t); simpl; constructor; auto.
Qed.

Lemma mapM_Ok (A B : Type) (f : A -> M B) (Q : B -> Prop) (l : list A) :
  Forall (fun a => forall r b r', f a r = Ok (b, r') -> Q b) l ->
  forall r bs r', mapM f l r = Ok (bs, r') -> Forall Q bs.
Proof.
  induction 1 as [|a l Ha _ IH]; simpl; intros r bs r' H.
  - inversion H. constructor.
  - apply bind_Ok in H. destruct H as (b & r1 & Hb & H).
    apply bind_Ok in H. destruct H as (bs' & r2 & Hbs & H).
    inversion H; subst. constructor; eauto.
Qed.

Lemma mapM_returns (A B : Type) (f : A -> M B) (l : list A) :
  Forall (fun a => forall r, exists b r', f a r = Ok (b, r')) l ->
  forall r, exists bs r', mapM f l r = Ok (bs, r').
Proof.
  induction 1 as [|a l Ha _ IH]; simpl; intros r.
  - unfold ret. eauto.
  - destruct (Ha r) as (b & r1 & Hb).
    destruct (IH r1) as (bs & r2 & Hbs).
    exists (b :: bs), r2.
    erewrite bind_step by exact Hb. erewrite bind_step by exact Hbs. reflexivity.
Qed.

End MonadLaws.

Section Initialisation.

Context {N : Numeric} {R : Random}.

(** Induction over a module tree, with the property assumed of every
    child. *)
Lemma Module_tree_ind (P : Module -> Prop) :
  (forall l, P (nn_Linear l)) ->
  (forall w b, P (nn_LayerNorm w b)) ->
  (forall attrs params children,
      Forall P children -> P (nn_Module attrs params children)) ->
  forall m, P m.
Proof.
  intros HL HN HM. fix IH 1. intros [l|w b|attrs params children].
  - apply HL.
  - apply HN.
  - apply HM. induction children as [|c cs IHcs]; constructor.
    + apply IH.
    + exact IHcs.
Qed.

Lemma Forall_flat_map (A B : Type) (g : A -> list B) (Q : B -> Prop) l :
  Forall (fun a => Forall Q (g a)) l -> Forall Q (flat_map g l).
Proof.
  induction 1; simpl; [constructor|]. apply Forall_app. auto.
Qed.

Lemma forallb_flat_map (A B : Type) (g : A -> list B) (q : B -> bool) l :
  forallb q (flat_map g l) = true ->
  Forall (fun a => forallb q (g a) = true) l.
Proof.
  induction l as [|a l IH]; simpl; intros H; constructor.
  - rewrite forallb_app in H. apply andb_prop in H. tauto.
  - apply IH. rewrite forallb_app in H. apply andb_prop in H. tauto.
Qed.

Lemma init_weights_initialised m r m' r' :
  apply _init_weights m r = Ok (m', r') -> initialised m'.
Proof.
  revert r m' r'. induction m as [l|w b|attrs params children IH]
    using Module_tree_ind; intros r m' r' H; simpl in H.
  - apply bind_Ok in H. destruct H as (wt & r1 & _ & H).
    inversion H; subst. split; simpl; [|constructor].
    constructor; [|constructor]. unfold zero_bias. simpl.
    destruct (bias l); [apply filled_constant|exact I].
  - destruct b as [bt|]; [|discriminate].
    destruct w as [wt|]; [|discriminate].
    inversion H; subst. split; simpl; [constructor|].
    constructor; [|constructor]. split; apply filled_constant.
  - apply bind_Ok in H. destruct H as (cs & r1 & Hcs & H).
    inversion H; subst.
    assert (Hall : Forall initialised cs).
    { eapply mapM_Ok; [|exact Hcs].
      eapply Forall_impl; [|exact IH]. intros c Hc; intros; eauto. }
    split; simpl; apply Forall_flat_map;
      (eapply Forall_impl; [|exact Hall]); intros c [? ?]; assumption.
Qed.

Lemma init_weights_returns m :
  affine m = true -> forall r, exists m' r', apply _init_weights m r = Ok (m', r').
Proof.
  induction m as [l|w b|attrs params children IH] using Module_tree_ind;
    intros Ha r; simpl.
  - destruct (fill_returns sample_trunc_normal (weight l) r) as (wt & r1 & Hw).
    unfold trunc_normal_. erewrite bind_step by exact Hw. unfold ret. eauto.
  - unfold affine in Ha. simpl in Ha.
    destruct w, b; try discriminate. unfold ret. eauto.
  - unfold affine in Ha. simpl in Ha. apply forallb_flat_map in Ha.
    assert (Hcs : Forall (fun c => forall r, exists c' r',
                              apply _init_weights c r = Ok (c', r')) children).
    { clear r. induction IH as [|c cs Hc _ IHcs]; constructor.
      - inversion Ha; subst. apply Hc. assumption.
      - inversion Ha; subst. apply IHcs. assumption. }
    destruct (mapM_returns _ Hcs r) as (cs & r1 & Hm).
    erewrite bind_step by exact Hm. unfold ret. eauto.
Qed.

Lemma initialised_from_initialised f m :
  initialised_from f m -> initialised m.
Proof.
  intros (m0 & r0 & r1 & r2 & r3 & _ & H).
  eapply init_weights_initialised; eauto.
Qed.

End Initialisation.

Section Construction.

Context {N : Numeric} {R : Random} {C : Collaborators}.

Local Open Scope monad_scope.

Lemma lift_step (A : Type) (x : result A) a r : x = Ok a -> lift x r = Ok (a, r).
Proof. intros ->. reflexivity. Qed.

Lemma new_Linear_inv i o r enc r' :
  new_Linear i o r = Ok (enc, r') ->
  0 <= i /\ 0 <= o /\ in_features enc = i /\ out_features enc = o
  /\ shape (weight enc) = [o; i]
  /\ exists b, bias enc = Some b /\ shape b = [o].
Proof.
  unfold new_Linear.
  destruct ((i <? 0) || (o <? 0)) eqn:Hneg; [discriminate|].
  apply orb_false_elim in Hneg. destruct Hneg as [Hi Ho].
  apply Z.ltb_ge in Hi. apply Z.ltb_ge in Ho.
  intros H. apply bind_Ok in H. destruct H as (w & r1 & Hw & H).
  apply bind_Ok in H. destruct H as (b & r2 & Hb & H).
  inversion H; subst; simpl.
  apply fill_shape in Hw.
  repeat split; auto.
  exists b. split; [reflexivity|].
  destruct (0 <? i).
  - apply fill_shape in Hb. exact Hb.
  - inversion Hb. reflexivity.
Qed.

Lemma new_Linear_returns i o r :
  0 <= i -> 0 <= o -> exists enc r', new_Linear i o r = Ok (enc, r').
Proof.
  intros Hi Ho. unfold new_Linear.
  apply Z.ltb_ge in Hi. apply Z.ltb_ge in Ho. rewrite Hi, Ho. simpl.
  destruct (fill_returns sample_kaiming_uniform (torch_empty [o; i]) r)
    as (w & r1 & Hw).
  unfold kaiming_uniform_. erewrite bind_step by exact Hw.
  destruct (0 <? i).
  - destruct (fill_returns (sample_uniform i) (torch_empty [o]) r1)
      as (b & r2 & Hb).
    unfold uniform_. erewrite bind_step by exact Hb. unfold ret. eauto.
  - unfold bind, ret. eauto.
Qed.

Lemma new_Linear_error i o r e :
  new_Linear i o r = Err e -> e = RuntimeError.
Proof.
  unfold new_Linear. destruct ((i <? 0) || (o <? 0)) eqn:Hneg.
  - unfold raise. intros H. inversion H. reflexivity.
  - apply orb_false_elim in Hneg. destruct Hneg as [Hi Ho].
    apply Z.ltb_ge in Hi. apply Z.ltb_ge in Ho.
    destruct (new_Linear_returns r Hi Ho) as (enc & r' & H).
    unfold new_Linear in H.
    apply Z.ltb_ge in Hi. apply Z.ltb_ge in Ho. rewrite Hi, Ho in H.
    simpl in H. rewrite H. discriminate.
Qed.

Lemma sum_shape0_first_dims ss S :
  sum_shape0 ss = Ok S -> S = first_dims ss.
Proof.
  revert S. induction ss as [|s ss IH]; simpl; intros S H.
  - inversion H. reflexivity.
  - unfold shape0, getitem0, first_dims, first_dim in *. simpl.
    destruct (space_shape s) as [[|d sh]|]; try discriminate. simpl in H.
    destruct (sum_shape0 ss) as [n|]; [|discriminate]. simpl in H.
    inversion H. rewrite (IH n eq_refl). reflexivity.
Qed.


Lemma sum_shape0_error ss e :
  sum_shape0 ss = Err e -> e = IndexError \/ e = TypeError.
Proof.
  induction ss as [|s ss IH]; simpl; [discriminate|].
  unfold shape0, getitem0.
  destruct (space_shape s) as [[|d sh]|]; simpl.
  - intros H. inversion H. auto.
  - destruct (sum_shape0 ss); simpl; [discriminate|].
    intros H. inversion H; subst. auto.
  - intros H. inversion H. auto.
Qed.

Variable obs_space : Space.
Variable tokenizer_f : Z -> Z -> M Module.
Variables pos_embedder_f transformer_encoder_f : Z -> M Module.
Variable E : Z.
Variable state_embed_dim : option Z.

Local Abbreviation construct :=
  (__init__ obs_space tokenizer_f pos_embedder_f transformer_encoder_f E
            state_embed_dim).

Lemma init_no_points r :
  point_subspace obs_space = None -> construct r = Err KeyError.
Proof.
  unfold __init__, point_subspace. destruct obs_space as [sh|spaces|sh];
    try discriminate.
  intros H. unfold PyDict.getitem. rewrite H. reflexivity.
Qed.

Lemma init_point_subspace r ps :
  point_subspace obs_space = Some ps ->
  lift (match obs_space with
        | Dict spaces => PyDict.getitem spaces "points"
        | _ => Ok obs_space
        end) r = Ok (ps, r).
Proof.
  unfold point_subspace. destruct obs_space as [sh|spaces|sh]; intros H.
  - inversion H. reflexivity.
  - unfold PyDict.getitem. rewrite H. reflexivity.
  - inversion H. reflexivity.
Qed.

Lemma init_not_point_cloud r ps :
  point_subspace obs_space = Some ps -> is_PointCloudSpace ps = false ->
  construct r = Err AssertionError.
Proof.
  intros Hps Hpc. unfold __init__.
  erewrite bind_step by (apply init_point_subspace; exact Hps).
  rewrite Hpc. reflexivity.
Qed.

Lemma init_no_point_dim r ps e :
  point_subspace obs_space = Some ps -> is_PointCloudSpace ps = true ->
  shape0 (space_shape ps) = Err e ->
  construct r = Err e.
Proof.
  intros Hps Hpc Hsh. unfold __init__.
  erewrite bind_step by (apply init_point_subspace; exact Hps).
  rewrite Hpc. erewrite bind_step by reflexivity.
  apply bind_fail. rewrite Hsh. reflexivity.
Qed.

(** Every successful construction went through the assertion, the four
    factories and the initialisation pass, and ended in [record_state]. *)
Lemma init_inv r self r' :
  construct r = Ok (self, r') ->
  exists ps pd tok pe te pool r1,
    point_subspace obs_space = Some ps
    /\ is_PointCloudSpace ps = true
    /\ shape0 (space_shape ps) = Ok pd
    /\ initialised_from (tokenizer_f pd E) tok
    /\ initialised_from (pos_embedder_f E) pe
    /\ initialised_from (transformer_encoder_f E) te
    /\ initialised_from (SequencePooling E) pool
    /\ record_state obs_space state_embed_dim tok pe te pool r1 = Ok (self, r').
Proof.
  intros H.
  destruct (point_subspace obs_space) as [ps|] eqn:Hps;
    [|rewrite init_no_points in H by exact Hps; discriminate].
  destruct (is_PointCloudSpace ps) eqn:Hpc;
    [|rewrite (init_not_point_cloud r Hps Hpc) in H; discriminate].
  destruct (shape0 (space_shape ps)) as [pd|e] eqn:Hpd;
    [|rewrite (init_no_point_dim r Hps Hpc Hpd) in H; discriminate].
  unfold __init__ in H.
  erewrite bind_step in H by (apply init_point_subspace; exact Hps).
  rewrite Hpc in H. erewrite bind_step in H by reflexivity.
  erewrite bind_step in H by (apply lift_step; exact Hpd).
  apply bind_Ok in H. destruct H as (tok0 & r1 & Htok0 & H).
  apply bind_Ok in H. destruct H as (pe0 & r2 & Hpe0 & H).
  apply bind_Ok in H. destruct H as (te0 & r3 & Hte0 & H).
  apply bind_Ok in H. destruct H as (pool0 & r4 & Hpool0 & H).
  apply bind_Ok in H. destruct H as (tok & r5 & Htok & H).
  apply bind_Ok in H. destruct H as (pe & r6 & Hpe & H).
  apply bind_Ok in H. destruct H as (te & r7 & Hte & H).
  apply bind_Ok in H. destruct H as (pool & r8 & Hpool & H).
  exists ps, pd, tok, pe, te, pool, r8.
  unfold initialised_from. repeat split; eauto 10.
Qed.

(** With factories that honour their contract the construction reaches
    [record_state]. *)
Lemma init_reaches_state r ps pd :
  point_subspace obs_space = Some ps ->
  is_PointCloudSpace ps = true ->
  shape0 (space_shape ps) = Ok pd ->
  factory_contracts tokenizer_f pos_embedder_f transformer_encoder_f pd E ->
  exists tok pe te pool r1,
    construct r = record_state obs_space state_embed_dim tok pe te pool r1.
Proof.
  intros Hps Hpc Hpd [Htok Hpe Hte Hpool]. unfold __init__.
  erewrite bind_step by (apply init_point_subspace; exact Hps).
  rewrite Hpc. erewrite bind_step by reflexivity.
  erewrite bind_step by (apply lift_step; exact Hpd).
  destruct (Htok r) as (tok0 & r1 & Htok0 & Atok).
  erewrite bind_step by exact Htok0.
  destruct (Hpe r1) as (pe0 & r2 & Hpe0 & Ape).
  erewrite bind_step by exact Hpe0.
  destruct (Hte r2) as (te0 & r3 & Hte0 & Ate).
  erewrite bind_step by exact Hte0.
  destruct (Hpool r3) as (pool0 & r4 & Hpool0 & Apool).
  erewrite bind_step by exact Hpool0.
  destruct (init_weights_returns _ Atok r4) as (tok & r5 & Itok).
  erewrite bind_step by exact Itok.
  destruct (init_weights_returns _ Ape r5) as (pe & r6 & Ipe).
  erewrite bind_step by exact Ipe.
  destruct (init_weights_returns _ Ate r6) as (te & r7 & Ite).
  erewrite bind_step by exact Ite.
  destruct (init_weights_returns _ Apool r7) as (pool & r8 & Ipool).
  erewrite bind_step by exact Ipool.
  exists tok, pe, te, pool, r8. reflexivity.
Qed.

Lemma record_state_error tok pe te pool r e :
  record_state obs_space state_embed_dim tok pe te pool r = Err e -> e <> AssertionError.
Proof.
  unfold record_state. destruct obs_space as [sh|spaces|sh];
    try discriminate.
  destruct (sum_shape0 (PyDict.values_except "points" spaces)) as [S|e'] eqn:HS.
  - erewrite bind_step by (apply lift_step; reflexivity).
    destruct state_embed_dim as [d|]; [|discriminate].
    destruct (new_Linear S d r) as [[enc r1]|e'] eqn:HL.
    + erewrite bind_step by exact HL. discriminate.
    + erewrite bind_fail by exact HL. apply new_Linear_error in HL.
      intros H. inversion H. subst. discriminate.
  - apply sum_shape0_error in HS.
    unfold bind, lift. intros H. inversion H. subst.
    destruct HS; subst; discriminate.
Qed.


End Construction.

Section ConstructionClaims.

Context {N : Numeric} {R : Random} {C : Collaborators}.

Lemma shape0_error sh e : shape0 sh = Err e -> e <> AssertionError.
Proof.
  destruct sh as [[|d t]|]; simpl; intros H; inversion H; discriminate.
Qed.

(** C2 (as amended): after a construction that completes, every linear
    layer inside the tokenizer, the positional embedder, the transformer
    encoder and the pooling stage has bias exactly 0 when it has a bias, and
    every layer normalisation there has bias 0 and scale exactly 1; the
    optional state projection is created after the initialisation pass and
    is as the framework's linear-layer constructor left it. *)
Theorem init_weights_cover_components :
  forall obs_space tokenizer_f pos_embedder_f transformer_encoder_f E
         state_embed_dim r self r',
    __init__ obs_space tokenizer_f pos_embedder_f transformer_encoder_f E
             state_embed_dim r = Ok (self, r') ->
    Forall zero_bias (flat_map linears (components self))
    /\ Forall unit_norm (owned_layer_norms self)
    /\ (forall enc, state_encoder self = Some enc ->
        exists d r1 r2,
          state_embed_dim = Some d
          /\ new_Linear (first_dims (aux_spaces obs_space)) d r1 = Ok (enc, r2)).
Proof.
  intros sp tf pf tef E sed r self r' H.
  apply init_inv in H.
  destruct H as (ps & pd & tok & pe & te & pool & r1 & _ & _ & _
                 & Htok & Hpe & Hte & Hpool & H).
  apply initialised_from_initialised in Htok, Hpe, Hte, Hpool.
  destruct Htok as [Lt Nt], Hpe as [Lp Np], Hte as [Le Ne], Hpool as [Lo No].
  assert (Hc : components self = [tok; pe; te; pool]
               /\ forall enc, state_encoder self = Some enc ->
                  exists d r1 r2,
                    sed = Some d
                    /\ new_Linear (first_dims (aux_spaces sp)) d r1 = Ok (enc, r2)).
  { unfold record_state in H. destruct sp as [sh|spaces|sh].
    - inversion H; subst. split; [reflexivity|]. simpl. discriminate.
    - apply bind_Ok in H. destruct H as (S & r2 & HS & H).
      apply lift_Ok in HS. destruct HS as [HS ->].
      apply sum_shape0_first_dims in HS. subst S.
      destruct sed as [d|].
      + apply bind_Ok in H. destruct H as (enc & r3 & HL & H).
        inversion H; subst. split; [reflexivity|]. simpl.
        intros enc' Henc. inversion Henc; subst. eauto.
      + inversion H; subst. split; [reflexivity|]. simpl. discriminate.
    - inversion H; subst. split; [reflexivity|]. simpl. discriminate. }
  destruct Hc as [Hc Henc]. unfold owned_layer_norms. rewrite Hc. simpl.
  rewrite !app_nil_r. repeat split.
  - repeat (apply Forall_app; split); assumption.
  - repeat (apply Forall_app; split); assumption.
  - exact Henc.
Qed.


(** C8: for a bare (non-dict) observation space the [state_embed_dim]
    argument has no effect: the construction gives the same result as with
    the argument absent, no state projection is created, the recorded state
    width is 0 and the [embed_dim] property is the transformer encoder's
    width. *)
Theorem bare_ignores_state_embed_dim :
  forall obs_space tokenizer_f pos_embedder_f transformer_encoder_f E
         state_embed_dim r,
    is_Dict obs_space = false ->
    __init__ obs_space tokenizer_f pos_embedder_f transformer_encoder_f E
             state_embed_dim r
    = __init__ obs_space tokenizer_f pos_embedder_f transformer_encoder_f E
               None r
    /\ forall self r',
        __init__ obs_space tokenizer_f pos_embedder_f transformer_encoder_f E
                 state_embed_dim r = Ok (self, r') ->
        obs_is_dict self = false
        /\ state_encoder self = None
        /\ state_dim self = 0
        /\ embed_dim self
           = rbind (module_attr (transformer_encoder self) "embed_dim")
                   (fun e => Ok (e + 0)).
Proof.
  intros sp tf pf tef E sed r Hbare.
  split.
  - unfold __init__. destruct sp; [reflexivity|discriminate|reflexivity].
  - intros self r' H. apply init_inv in H.
    destruct H as (ps & pd & tok & pe & te & pool & r1 & _ & _ & _
                   & _ & _ & _ & _ & H).
    unfold record_state in H.
    destruct sp; try discriminate; inversion H; subst;
      unfold embed_dim; simpl; auto.
Qed.

(** C9: constructing with a dict observation space that has no ["points"]
    entry fails with a key-lookup error, whatever the factories are; and
    with factories that honour their contract an assertion failure occurs
    only when the point-cloud sub-space exists and is not a point-cloud
    space. *)
Theorem init_missing_points :
  forall spaces tokenizer_f pos_embedder_f transformer_encoder_f E
         state_embed_dim r,
    PyDict.get spaces "points" = None ->
    __init__ (Dict spaces) tokenizer_f pos_embedder_f transformer_encoder_f E
             state_embed_dim r = Err KeyError
    /\ forall obs_space,
        factories_ok obs_space tokenizer_f pos_embedder_f
                     transformer_encoder_f E ->
        __init__ obs_space tokenizer_f pos_embedder_f transformer_encoder_f E
                 state_embed_dim r = Err AssertionError ->
        exists ps, point_subspace obs_space = Some ps
                   /\ is_PointCloudSpace ps = false.
Proof.
  intros spaces tf pf tef E sed r Hget. split.
  - apply init_no_points. exact Hget.
  - intros sp Hf H. destruct (point_subspace sp) as [ps|] eqn:Hps.
    + exists ps. split; [reflexivity|].
      destruct (is_PointCloudSpace ps) eqn:Hpc; [exfalso|reflexivity].
      destruct (shape0 (space_shape ps)) as [pd|e] eqn:Hpd.
      * destruct (@init_reaches_state _ _ _ sp tf pf tef E sed r ps pd Hps Hpc Hpd
                                       (Hf ps pd Hps Hpd))
          as (tok & pe & te & pool & r1 & Heq).
        rewrite Heq in H. apply record_state_error in H. congruence.
      * rewrite (@init_no_point_dim _ _ _ sp tf pf tef E sed r ps e Hps Hpc Hpd) in H.
        apply shape0_error in Hpd. congruence.
    + rewrite init_no_points in H by exact Hps. discriminate.
Qed.

(** C10: for a dict observation space the combined auxiliary width used at
    construction, to record the unprojected state width and to size the
    projection layer, is the sum over the sub-spaces not named ["points"] of
    the first dimension of each sub-space's shape; a sub-space with further
    dimensions contributes its first one only. *)
Theorem state_width_sums_first_dims :
  forall spaces tokenizer_f pos_embedder_f transformer_encoder_f E
         state_embed_dim r self r',
    __init__ (Dict spaces) tokenizer_f pos_embedder_f transformer_encoder_f E
             state_embed_dim r = Ok (self, r') ->
    let S := fold_right Z.add 0
               (map first_dim (PyDict.values_except "points" spaces)) in
    (forall d rest, first_dim (OtherSpace (Some (d :: rest))) = d)
    /\ match state_embed_dim with
       | None => state_encoder self = None /\ state_dim self = S
       | Some d =>
           exists enc, state_encoder self = Some enc
                       /\ in_features enc = S
                       /\ out_features enc = d
                       /\ shape (weight enc) = [d; S]
       end.
Proof.
  intros spaces tf pf tef E sed r self r' H S. split; [reflexivity|].
  apply init_inv in H.
  destruct H as (ps & pd & tok & pe & te & pool & r1 & _ & _ & _
                 & _ & _ & _ & _ & H).
  unfold record_state in H.
  apply bind_Ok in H. destruct H as (S' & r2 & HS & H).
  apply lift_Ok in HS. destruct HS as [HS ->].
  apply sum_shape0_first_dims in HS. unfold first_dims in HS. fold S in HS.
  subst S'. destruct sed as [d|].
  - apply bind_Ok in H. destruct H as (enc & r3 & HL & H).
    inversion H; subst. simpl. exists enc.
    apply new_Linear_inv in HL. tauto.
  - inversion H; subst. simpl. auto.
Qed.

End ConstructionClaims.

Section TensorShapes.

Context {N : Numeric}.

Lemma as_tensors_leaves (ts : list Tensor) : as_tensors (map Leaf ts) = Ok ts.
Proof.
  induction ts as [|t ts IH]; simpl; [reflexivity|]. rewrite IH. reflexivity.
Qed.

Lemma shape_eqb_refl sh : shape_eqb sh sh = true.
Proof. unfold shape_eqb. destruct (list_eq_dec Z.eq_dec sh sh); congruence. Qed.

Lemma filter_all (A : Type) (f : A -> bool) l :
  Forall (fun a => f a = true) l -> filter f l = l.
Proof.
  induction 1 as [|a l Ha _ IH]; simpl; [reflexivity|]. rewrite Ha, IH.
  reflexivity.
Qed.

Lemma rows_not_skipped B ts ws :
  rows B ts ws ->
  Forall (fun t => negb (shape_eqb (shape t) [0]) = true) ts.
Proof.
  induction 1 as [|t w ts ws Ht _ IH]; constructor; [|exact IH].
  rewrite Ht. unfold shape_eqb.
  destruct (list_eq_dec Z.eq_dec [B; w] [0]); [discriminate|reflexivity].
Qed.

Lemma rows_same_lead B ts ws :
  rows B ts ws -> forallb (same_lead [B]) ts = true.
Proof.
  induction 1 as [|t w ts ws Ht _ IH]; simpl; [reflexivity|].
  rewrite IH. unfold same_lead. rewrite Ht. simpl.
  rewrite shape_eqb_refl. reflexivity.
Qed.

Lemma rows_last_dims B ts ws : rows B ts ws -> map last_dim ts = ws.
Proof.
  induction 1 as [|t w ts ws Ht _ IH]; simpl; [reflexivity|].
  rewrite IH. unfold last_dim. rewrite Ht. reflexivity.
Qed.

(** Concatenating rows of one batch size adds up their widths. *)
Lemma concatenate_rows B t w ts ws :
  shape t = [B; w] -> rows B ts ws ->
  exists out,
    torch_concatenate (map Leaf (t :: ts)) = Ok out
    /\ shape out = [B; w + fold_right Z.add 0 ws].
Proof.
  intros Ht Hts.
  assert (Hall : rows B (t :: ts) (w :: ws)) by (constructor; assumption).
  unfold torch_concatenate. rewrite as_tensors_leaves.
  cbn beta iota delta [rbind].
  rewrite (filter_all _ (rows_not_skipped Hall)).
  rewrite Ht. cbn [split_last].
  rewrite (rows_same_lead Hts).
  eexists. split; [reflexivity|].
  cbn [shape app]. rewrite (rows_last_dims Hall). reflexivity.
Qed.

Lemma Linear_forward_rows (l : Linear) x B o i :
  shape (weight l) = [o; i] -> shape x = [B; i] ->
  exists y, Linear_forward l x = Ok y /\ shape y = [B; o].
Proof.
  intros Hw Hx. unfold Linear_forward. rewrite Hw, Hx. cbn [split_last].
  rewrite Z.eqb_refl. eexists. split; reflexivity.
Qed.

End TensorShapes.

Section ForwardPass.

Context {N : Numeric} {R : Random} {C : Collaborators}.

Variable cloud : Z -> ArrayTree -> Prop.
Variable batched : Z -> Tensor -> Tensor -> option Tensor -> Prop.

Lemma pipeline_runs self B E pd pc r :
  contracts cloud batched self B E pd -> cloud B pc ->
  exists encoder_out r',
    encodes self pc r encoder_out r' /\ shape encoder_out = [B; E].
Proof.
  intros K Hpc.
  pose proof (decomposition_contract K) as Kd.
  pose proof (tokenizer_contract K) as Kt.
  pose proof (pos_embedder_contract K) as Kp.
  pose proof (transformer_encoder_contract K) as Ke.
  pose proof (pooling_contract K) as Ko.
  destruct (Kd pc r Hpc) as (pos & batch & color & r1 & Hd & Hb).
  destruct (Kt pos batch color r1 Hb)
    as (x & aux & centers & r2 & n & Ht & Hx & Hc).
  destruct (Kp centers n r2 Hc) as (p & r3 & Hp & Hps).
  destruct (Ke x p n r3 Hx Hps) as (y & r4 & Hy & Hys).
  rewrite Hx in Hys.
  destruct (Ko y n r4 Hys) as (out & r5 & Ho & Hos).
  exists out, r5. split; [|exact Hos].
  unfold encodes. exists pos, batch, color, x, aux, centers, p, y, r1, r2, r3, r4.
  auto.
Qed.

Lemma forward_encodes self observation pc r encoder_out r' :
  (if obs_is_dict self then tree_getitem observation "points"
   else Ok observation) = Ok pc ->
  encodes self pc r encoder_out r' ->
  forward self observation r = lift (fuse self observation encoder_out) r'.
Proof.
  intros Hpc (pos & batch & color & x & aux & centers & p & y
              & r1 & r2 & r3 & r4 & Hd & Ht & Hp & Hy & Ho).
  unfold forward.
  erewrite bind_step by (apply lift_step; exact Hpc).
  erewrite bind_step by exact Hd. cbv beta iota.
  erewrite bind_step by exact Ht. cbv beta iota.
  erewrite bind_step by exact Hp.
  erewrite bind_step by exact Hy.
  erewrite bind_step by exact Ho.
  unfold fuse. destruct (obs_is_dict self); [|reflexivity].
  unfold bind, lift, ret.
  destruct (tree_items observation) as [items|e]; [|reflexivity].
  cbn [rbind].
  destruct (state_encoder self) as [enc|]; [|reflexivity].
  destruct (torch_concatenate (PyDict.values_except "points" items))
    as [state|e]; [|reflexivity].
  cbn [rbind].
  destruct (Linear_forward enc state) as [state'|e]; reflexivity.
Qed.

(** The auxiliary fields of a conforming observation, in declared order. *)
Lemma conforming_aux_items B spaces items :
  Forall2 (fun e i => fst e = fst i /\ conforms cloud B (snd e) (snd i))
          spaces items ->
  Forall (fun s => vector_space s = true)
         (PyDict.values_except "points" spaces) ->
  exists ts,
    PyDict.values_except "points" items = map Leaf ts
    /\ rows B ts (map first_dim (PyDict.values_except "points" spaces)).
Proof.
  unfold PyDict.values_except.
  induction 1 as [|[k s] [k' o] spaces items [Hk Ho] _ IH]; simpl; intros Hv.
  - exists []. split; [reflexivity|constructor].
  - simpl in Hk, Ho. subst k'.
    destruct (String.eqb k "points"); simpl in *.
    + apply IH. exact Hv.
    + inversion Hv as [|? ? Hs Hv']; subst.
      destruct (IH Hv') as (ts & Hts & Hrows).
      unfold vector_space in Hs.
      destruct s as [sh|sub|[[|w [|w' sh]]|]]; try discriminate.
      inversion Ho as [| ? t Ht |]; subst.
      exists (t :: ts). split.
      * simpl. rewrite Hts. reflexivity.
      * constructor; [exact Ht|exact Hrows].
Qed.

(** The point cloud of a conforming observation. *)
Lemma conforming_points B spaces items ps :
  Forall2 (fun e i => fst e = fst i /\ conforms cloud B (snd e) (snd i))
          spaces items ->
  PyDict.get spaces "points" = Some ps ->
  exists pc, PyDict.get items "points" = Some pc /\ conforms cloud B ps pc.
Proof.
  induction 1 as [|[k s] [k' o] spaces items [Hk Ho] _ IH]; simpl; intros Hg.
  - discriminate.
  - simpl in Hk, Ho. subst k'.
    destruct (String.eqb k "points").
    + inversion Hg; subst. eauto.
    + apply IH. exact Hg.
Qed.

Lemma conforming_cloud B sp obs ps :
  conforms cloud B sp obs ->
  point_subspace sp = Some ps ->
  is_PointCloudSpace ps = true ->
  exists pc,
    (if is_Dict sp then tree_getitem obs "points" else Ok obs) = Ok pc
    /\ cloud B pc.
Proof.
  intros Hc Hps Hpc. inversion Hc as [sh pc Hcl|sh t Ht|spaces items Hall]; subst.
  - simpl. eauto.
  - simpl in Hps. inversion Hps; subst. discriminate.
  - simpl in Hps. destruct (conforming_points Hall Hps) as (pc & Hg & Hcp).
    exists pc. simpl. unfold PyDict.getitem. rewrite Hg. split; [reflexivity|].
    destruct ps; try discriminate. inversion Hcp. assumption.
Qed.

End ForwardPass.

Section Fusion.

Context {N : Numeric} {R : Random} {C : Collaborators}.

(** What a successful construction records about the state features. *)
Lemma init_state obs_space tokenizer_f pos_embedder_f transformer_encoder_f
      E state_embed_dim r self r' :
  __init__ obs_space tokenizer_f pos_embedder_f transformer_encoder_f E
           state_embed_dim r = Ok (self, r') ->
  obs_is_dict self = is_Dict obs_space
  /\ (is_Dict obs_space = false ->
      state_encoder self = None /\ state_dim self = 0)
  /\ (is_Dict obs_space = true -> state_embed_dim = None ->
      state_encoder self = None
      /\ state_dim self = first_dims (aux_spaces obs_space))
  /\ (is_Dict obs_space = true -> forall d, state_embed_dim = Some d ->
      state_dim self = d
      /\ exists enc,
          state_encoder self = Some enc
          /\ in_features enc = first_dims (aux_spaces obs_space)
          /\ out_features enc = d
          /\ shape (weight enc) = [d; first_dims (aux_spaces obs_space)]).
Proof.
  intros H. apply init_inv in H.
  destruct H as (ps & pd & tok & pe & te & pool & r1 & _ & _ & _
                 & _ & _ & _ & _ & H).
  unfold record_state in H. destruct obs_space as [sh|spaces|sh].
  - inversion H; subst. simpl. repeat split; auto; discriminate.
  - apply bind_Ok in H. destruct H as (S & r2 & HS & H).
    apply lift_Ok in HS. destruct HS as [HS ->].
    apply sum_shape0_first_dims in HS. subst S.
    destruct state_embed_dim as [d|].
    + apply bind_Ok in H. destruct H as (enc & r3 & HL & H).
      inversion H; subst. simpl. apply new_Linear_inv in HL.
      split; [reflexivity|]. split; [discriminate|]. split; [discriminate|].
      intros _ d' Hd. inversion Hd; subst. split; [reflexivity|].
      exists enc. tauto.
    + inversion H; subst. simpl. repeat split; auto; discriminate.
  - inversion H; subst. simpl. repeat split; auto; discriminate.
Qed.

Lemma vector_space_first_dim s : vector_space s = true -> has_first_dim s = true.
Proof.
  unfold vector_space, has_first_dim.
  destruct s as [sh|sub|[[|w [|w' sh]]|]]; simpl; auto; discriminate.
Qed.

Lemma fuse_bare self observation encoder_out :
  obs_is_dict self = false ->
  fuse self observation encoder_out = Ok encoder_out.
Proof. unfold fuse. intros ->. reflexivity. Qed.

(** Without a projection the point embedding and the state vectors are
    concatenated as they are. *)
Lemma fuse_raw self items encoder_out B E ts ws :
  obs_is_dict self = true -> state_encoder self = None ->
  shape encoder_out = [B; E] ->
  PyDict.values_except "points" items = map Leaf ts ->
  rows B ts ws ->
  exists out,
    torch_concatenate (Leaf encoder_out :: PyDict.values_except "points" items)
    = Ok out
    /\ fuse self (Node items) encoder_out = Ok out
    /\ shape out = [B; E + fold_right Z.add 0 ws].
Proof.
  intros Hd Hs He Hts Hrows. unfold fuse. rewrite Hd, Hs. cbn [tree_items rbind].
  rewrite Hts.
  destruct (@concatenate_rows _ B encoder_out E ts ws He Hrows)
    as (out & Hout & Hsh).
  exists out. cbn [map] in Hout. rewrite Hout. auto.
Qed.

(** With a projection the state vectors are concatenated, projected, and
    the projection is concatenated onto the point embedding. *)
Lemma fuse_projected self items encoder_out B E D enc ts ws :
  obs_is_dict self = true -> state_encoder self = Some enc ->
  shape (weight enc) = [D; fold_right Z.add 0 ws] ->
  shape encoder_out = [B; E] ->
  PyDict.values_except "points" items = map Leaf ts ->
  rows B ts ws -> ts <> [] ->
  exists state projected out,
    torch_concatenate (PyDict.values_except "points" items) = Ok state
    /\ shape state = [B; fold_right Z.add 0 ws]
    /\ Linear_forward enc state = Ok projected
    /\ shape projected = [B; D]
    /\ torch_concatenate [Leaf encoder_out; Leaf projected] = Ok out
    /\ fuse self (Node items) encoder_out = Ok out
    /\ shape out = [B; E + D].
Proof.
  intros Hd Hs Hw He Hts Hrows Hne. unfold fuse. rewrite Hd, Hs.
  cbn [tree_items rbind]. rewrite Hts.
  destruct Hrows as [|t w ts ws Ht Hrows]; [congruence|].
  destruct (@concatenate_rows _ B t w ts ws Ht Hrows) as (state & Hstate & Hsh).
  simpl fold_right in Hw.
  destruct (@Linear_forward_rows _ enc state B D _ Hw Hsh)
    as (projected & Hproj & Hpsh).
  assert (Hp : rows B [projected] [D]) by (repeat constructor; exact Hpsh).
  destruct (@concatenate_rows _ B encoder_out E [projected] [D] He Hp)
    as (out & Hout & Hosh).
  exists state, projected, out. rewrite Hstate. cbn [rbind].
  rewrite Hproj. cbn [rbind]. cbn [map] in Hout. rewrite Hout.
  simpl fold_right in Hosh. rewrite Z.add_0_r in Hosh.
  simpl fold_right. auto 10.
Qed.

End Fusion.

Section OutputWidth.

Context {N : Numeric} {R : Random} {C : Collaborators}.

Variable cloud : Z -> ArrayTree -> Prop.

Lemma split_last_Some sh : forall lead w,
  split_last sh = Some (lead, w) -> sh = lead ++ [w].
Proof.
  induction sh as [|d sh IH]; intros lead w H; [discriminate|].
  destruct sh as [|d' sh'].
  - simpl in H. inversion H. reflexivity.
  - change (split_last (d :: d' :: sh'))
      with (match split_last (d' :: sh') with
            | Some (lead, w) => Some (d :: lead, w)
            | None => None
            end) in H.
    destruct (split_last (d' :: sh')) as [[lead' w']|] eqn:Hs; [|discriminate].
    inversion H; subst. rewrite (IH lead' w eq_refl). reflexivity.
Qed.

Lemma split_last_snoc lead w : split_last (lead ++ [w]) = Some (lead, w).
Proof.
  induction lead as [|d lead IH]; [reflexivity|].
  change (split_last ((d :: lead) ++ [w]))
    with (split_last (d :: (lead ++ [w]))).
  destruct (lead ++ [w]) as [|d' sh'] eqn:Hl.
  - destruct lead; discriminate.
  - change (split_last (d :: d' :: sh'))
      with (match split_last (d' :: sh') with
            | Some (lead, w) => Some (d :: lead, w)
            | None => None
            end).
    rewrite IH. reflexivity.
Qed.

Lemma last_dim_snoc (t : Tensor) lead w : shape t = lead ++ [w] -> last_dim t = w.
Proof. intros H. unfold last_dim. rewrite H, split_last_snoc. reflexivity. Qed.

(** What a successful concatenation says about its arguments when none of
    them is skipped. *)
Lemma concatenate_inv (ts : list Tensor) out :
  torch_concatenate (map Leaf ts) = Ok out ->
  Forall (fun t => shape t <> [0]) ts ->
  exists t rest lead w,
    ts = t :: rest
    /\ shape t = lead ++ [w]
    /\ Forall (fun u => exists v, shape u = lead ++ [v]) rest
    /\ shape out = lead ++ [fold_right Z.add 0 (map last_dim ts)].
Proof.
  intros H Hns. unfold torch_concatenate in H. rewrite as_tensors_leaves in H.
  cbn beta iota delta [rbind] in H.
  destruct ts as [|t rest]; [discriminate|].
  rewrite filter_all in H.
  2:{ eapply Forall_impl; [|exact Hns]. intros u Hu. cbv beta in Hu.
      unfold shape_eqb. destruct (list_eq_dec Z.eq_dec (shape u) [0]);
        [contradiction|reflexivity]. }
  destruct (split_last (shape t)) as [[lead w]|] eqn:Hs; [|discriminate].
  destruct (forallb (same_lead lead) rest) eqn:Hall; [|discriminate].
  inversion H; subst out. cbn [shape].
  exists t, rest, lead, w. split; [reflexivity|].
  split; [apply split_last_Some; exact Hs|]. split; [|reflexivity].
  rewrite forallb_forall in Hall. apply Forall_forall. intros u Hu.
  specialize (Hall u Hu). unfold same_lead in Hall.
  destruct (split_last (shape u)) as [[lead' v]|] eqn:Hsu; [|discriminate].
  exists v. apply split_last_Some in Hsu. rewrite Hsu.
  unfold shape_eqb in Hall.
  destruct (list_eq_dec Z.eq_dec lead lead'); [subst; reflexivity|discriminate].
Qed.

Lemma Linear_forward_inv (l : Linear) x y o i :
  shape (weight l) = [o; i] -> Linear_forward l x = Ok y ->
  exists lead, shape x = lead ++ [i] /\ shape y = lead ++ [o].
Proof.
  intros Hw. unfold Linear_forward. rewrite Hw.
  destruct (split_last (shape x)) as [[lead w]|] eqn:Hs; [|discriminate].
  destruct (w =? i) eqn:Hwi; [|discriminate].
  apply Z.eqb_eq in Hwi. subst w. intros H. inversion H; subst y.
  exists lead. split; [apply split_last_Some; exact Hs|reflexivity].
Qed.

Lemma sum_shape0_shapes ss S :
  sum_shape0 ss = Ok S ->
  Forall (fun s => exists d sh, space_shape s = Some (d :: sh)) ss.
Proof.
  revert S. induction ss as [|s ss IH]; simpl; intros S H; constructor.
  - unfold shape0, getitem0 in H.
    destruct (space_shape s) as [[|d sh]|]; try discriminate. eauto.
  - destruct (shape0 (space_shape s)); [|discriminate]. simpl in H.
    destruct (sum_shape0 ss) as [n|]; [|discriminate]. eapply IH. reflexivity.
Qed.

Lemma conforming_aux_arrays B spaces items :
  Forall2 (fun e i => fst e = fst i /\ conforms cloud B (snd e) (snd i))
          spaces items ->
  Forall (fun s => array_space s = true)
         (PyDict.values_except "points" spaces) ->
  Forall (fun s => exists d sh, space_shape s = Some (d :: sh))
         (PyDict.values_except "points" spaces) ->
  exists ts,
    PyDict.values_except "points" items = map Leaf ts
    /\ Forall2 (batch_of B) ts (PyDict.values_except "points" spaces).
Proof.
  unfold PyDict.values_except.
  induction 1 as [|[k s] [k' o] spaces items [Hk Ho] _ IH]; simpl;
    intros Ha Hs.
  - exists []. split; [reflexivity|constructor].
  - simpl in Hk, Ho. subst k'.
    destruct (String.eqb k "points"); simpl in *.
    + apply IH; assumption.
    + inversion Ha as [|? ? Has Ha']; subst.
      inversion Hs as [|? ? (d & sh & Hsh) Hs']; subst.
      destruct (IH Ha' Hs') as (ts & Hts & Hall).
      destruct s as [psh|sub|osh]; try discriminate. simpl in Hsh. subst osh.
      inversion Ho as [| ? t Ht |]; subst.
      exists (t :: ts). split.
      * simpl. rewrite Hts. reflexivity.
      * constructor; [|exact Hall]. exists d, sh. auto.
Qed.

Lemma batch_not_skipped B ts ss :
  Forall2 (batch_of B) ts ss -> Forall (fun t => shape t <> [0]) ts.
Proof.
  induction 1 as [|t s ts ss (d & sh & _ & Ht) _ IH]; constructor; [|exact IH].
  rewrite Ht. discriminate.
Qed.

Lemma batch_rows_widths B ts ss :
  Forall2 (batch_of B) ts ss ->
  Forall (fun u => exists v, shape u = [B] ++ [v]) ts ->
  map last_dim ts = map first_dim ss.
Proof.
  induction 1 as [|t s ts ss (d & sh & Hs & Ht) _ IH]; intros Hr;
    [reflexivity|].
  inversion Hr as [|? ? (v & Hv) Hr']; subst. simpl.
  rewrite (IH Hr'). f_equal.
  rewrite (@last_dim_snoc t [B] v Hv). unfold first_dim. rewrite Hs.
  rewrite Ht in Hv. inversion Hv. reflexivity.
Qed.

(** Whenever the fusion step returns, the trailing dimension of its result
    is the pooled width plus the recorded state width. *)
Lemma fuse_raw_width self items encoder_out B E ts ss out :
  obs_is_dict self = true -> state_encoder self = None ->
  shape encoder_out = [B; E] ->
  PyDict.values_except "points" items = map Leaf ts ->
  Forall2 (batch_of B) ts ss ->
  fuse self (Node items) encoder_out = Ok out ->
  last_dim out = E + first_dims ss.
Proof.
  intros Hd Hs He Hts Hb H. unfold fuse in H. rewrite Hd, Hs in H.
  cbn [tree_items rbind] in H. rewrite Hts in H.
  change (Leaf encoder_out :: map Leaf ts)
    with (map Leaf (encoder_out :: ts)) in H.
  apply concatenate_inv in H.
  2:{ constructor; [rewrite He; discriminate|].
      eapply batch_not_skipped; exact Hb. }
  destruct H as (t & rest & lead & w & Heq & Ht & Hrest & Hout).
  inversion Heq; subst t rest. rewrite He in Ht.
  change [B; E] with ([B] ++ [E]) in Ht.
  apply app_inj_tail in Ht. destruct Ht as [<- <-].
  apply last_dim_snoc in Hout as Hl. rewrite Hl. simpl.
  rewrite (@batch_rows_widths B ts ss Hb Hrest).
  rewrite (@last_dim_snoc encoder_out [B] E He). reflexivity.
Qed.

Lemma fuse_projected_width self items encoder_out B E D S enc ts ss out :
  obs_is_dict self = true -> state_encoder self = Some enc ->
  shape (weight enc) = [D; S] ->
  shape encoder_out = [B; E] ->
  PyDict.values_except "points" items = map Leaf ts ->
  Forall2 (batch_of B) ts ss ->
  fuse self (Node items) encoder_out = Ok out ->
  last_dim out = E + D.
Proof.
  intros Hd Hs Hw He Hts Hb H. unfold fuse in H. rewrite Hd, Hs in H.
  cbn [tree_items rbind] in H. rewrite Hts in H.
  destruct (torch_concatenate (map Leaf ts)) as [state|e] eqn:Hcat;
    [|discriminate].
  cbn [rbind] in H.
  destruct (Linear_forward enc state) as [projected|e] eqn:Hlin;
    [|discriminate].
  cbn [rbind] in H.
  apply concatenate_inv in Hcat; [|eapply batch_not_skipped; exact Hb].
  destruct Hcat as (t & rest & lead & w & Heq & Ht & _ & Hstate).
  subst ts. inversion Hb as [|? s ? ss' (d & sh & _ & Hsh) _]; subst.
  rewrite Hsh in Ht.
  destruct (@Linear_forward_inv enc state projected D S Hw Hlin)
    as (lead' & Hx & Hy).
  rewrite Hstate in Hx. apply app_inj_tail in Hx. destruct Hx as [<- _].
  assert (Hlead : exists l, lead = B :: l).
  { destruct lead as [|b l]; [discriminate|]. inversion Ht. eauto. }
  destruct Hlead as (l & ->).
  change [Leaf encoder_out; Leaf projected]
    with (map Leaf [encoder_out; projected]) in H.
  apply concatenate_inv in H.
  2:{ constructor; [rewrite He; discriminate|].
      constructor; [|constructor]. rewrite Hy. destruct l; discriminate. }
  destruct H as (t' & rest' & lead2 & w2 & Heq & Ht' & _ & Hout).
  inversion Heq; subst t' rest'.
  apply last_dim_snoc in Hout. rewrite Hout. simpl.
  rewrite (@last_dim_snoc encoder_out [B] E He).
  rewrite (@last_dim_snoc projected (B :: l) D Hy). lia.
Qed.

End OutputWidth.

Section ForwardClaims.

Context {N : Numeric} {R : Random} {C : Collaborators}.

Variable cloud : Z -> ArrayTree -> Prop.
Variable batched : Z -> Tensor -> Tensor -> option Tensor -> Prop.

(** On a conforming observation the forward pass of a constructed encoder
    runs the point pipeline and reaches the fusion step. *)
Lemma forward_reaches_fusion obs_space tokenizer_f pos_embedder_f
      transformer_encoder_f E state_embed_dim r self r' B pd observation r1 :
  __init__ obs_space tokenizer_f pos_embedder_f transformer_encoder_f E
           state_embed_dim r = Ok (self, r') ->
  contracts cloud batched self B E pd ->
  conforms cloud B obs_space observation ->
  exists pc encoder_out r2,
    (if is_Dict obs_space then tree_getitem observation "points"
     else Ok observation) = Ok pc
    /\ encodes self pc r1 encoder_out r2
    /\ shape encoder_out = [B; E]
    /\ forward self observation r1
       = lift (fuse self observation encoder_out) r2.
Proof.
  intros Hinit K Hconf.
  destruct (@init_state _ _ _ _ _ _ _ _ _ _ _ _ Hinit) as (Hdict & _).
  apply init_inv in Hinit.
  destruct Hinit as (ps & pd' & tok & pe & te & pool & r0 & Hps & Hpc & _).
  destruct (@conforming_cloud _ cloud B _ _ _ Hconf Hps Hpc)
    as (pc & Hget & Hcloud).
  destruct (@pipeline_runs _ _ _ cloud batched self B E pd pc r1 K Hcloud)
    as (encoder_out & r2 & Henc & Hsh).
  exists pc, encoder_out, r2. repeat split; try assumption.
  apply forward_encodes with (pc := pc); [|exact Henc].
  rewrite Hdict. exact Hget.
Qed.

Lemma embed_dim_value self B E pd :
  contracts cloud batched self B E pd ->
  embed_dim self = Ok (E + state_dim self).
Proof.
  intros K. unfold embed_dim. rewrite (transformer_encoder_width K).
  reflexivity.
Qed.

(** C5: for a bare point-cloud observation of batch size [B] the forward
    pass decomposes the point cloud, runs the tokenizer, the positional
    embedder on the patch centres, the transformer encoder on the tokens
    and the positional embeddings and the pooling, and returns the pooled
    tensor itself, of shape [[B; embed_dim]]. *)
Theorem forward_bare_point_cloud :
  forall sh tokenizer_f pos_embedder_f transformer_encoder_f E
         state_embed_dim r self r' B pd observation r1,
    __init__ (PointCloudSpace sh) tokenizer_f pos_embedder_f
             transformer_encoder_f E state_embed_dim r = Ok (self, r') ->
    contracts cloud batched self B E pd ->
    cloud B observation ->
    exists encoder_out r2,
      encodes self observation r1 encoder_out r2
      /\ forward self observation r1 = Ok (encoder_out, r2)
      /\ shape encoder_out = [B; E]
      /\ embed_dim self = Ok E.
Proof.
  intros sh tf pf tef E sed r self r' B pd obs r1 Hinit K Hcloud.
  destruct (@init_state _ _ _ _ _ _ _ _ _ _ _ _ Hinit) as (Hdict & Hbare & _).
  destruct (Hbare eq_refl) as [_ Hdim].
  destruct (@forward_reaches_fusion _ _ _ _ _ _ _ _ _ _ _ _ r1 Hinit K
                                    (@conforms_cloud _ cloud B sh obs Hcloud))
    as (pc & encoder_out & r2 & Hpc & Henc & Hsh & Hfwd).
  simpl in Hpc. inversion Hpc; subst pc.
  exists encoder_out, r2. repeat split; try assumption.
  - rewrite Hfwd, fuse_bare by exact Hdict. reflexivity.
  - rewrite (embed_dim_value K), Hdim. f_equal. lia.
Qed.

(** C4: for a dict observation space whose auxiliary sub-spaces are vector
    spaces of combined width [S], constructed without [state_embed_dim]: no
    projection layer is created, the recorded state width is [S], and on a
    conforming batch of size [B] the forward pass concatenates the pooled
    point embedding with the auxiliary fields and returns a tensor of shape
    [[B; embed_dim + S]]. *)
Theorem forward_raw_state :
  forall spaces tokenizer_f pos_embedder_f transformer_encoder_f E
         r self r' B pd items r1,
    __init__ (Dict spaces) tokenizer_f pos_embedder_f transformer_encoder_f
             E None r = Ok (self, r') ->
    Forall (fun s => vector_space s = true)
           (PyDict.values_except "points" spaces) ->
    contracts cloud batched self B E pd ->
    conforms cloud B (Dict spaces) (Node items) ->
    let S := first_dims (PyDict.values_except "points" spaces) in
    state_encoder self = None
    /\ state_dim self = S
    /\ exists pc encoder_out out r2,
        PyDict.get items "points" = Some pc
        /\ encodes self pc r1 encoder_out r2
        /\ torch_concatenate
             (Leaf encoder_out :: PyDict.values_except "points" items) = Ok out
        /\ forward self (Node items) r1 = Ok (out, r2)
        /\ shape out = [B; E + S].
Proof.
  intros spaces tf pf tef E r self r' B pd items r1 Hinit Hvec K Hconf S.
  destruct (@init_state _ _ _ _ _ _ _ _ _ _ _ _ Hinit) as (Hdict & _ & Hraw & _).
  destruct (Hraw eq_refl eq_refl) as [Henc Hdim]. simpl in Hdict, Hdim.
  split; [exact Henc|]. split; [exact Hdim|].
  destruct (@forward_reaches_fusion _ _ _ _ _ _ _ _ _ _ _ _ r1 Hinit K Hconf)
    as (pc & encoder_out & r2 & Hpc & Hrun & Hsh & Hfwd).
  simpl in Hpc. unfold PyDict.getitem in Hpc.
  destruct (PyDict.get items "points") as [pc'|] eqn:Hget; [|discriminate].
  inversion Hpc; subst pc'.
  inversion Hconf as [| |sp' it' Hall Hsp Hit]; subst sp' it'.
  destruct (@conforming_aux_items _ cloud B _ _ Hall Hvec)
    as (ts & Hts & Hrows).
  destruct (@fuse_raw _ self items encoder_out B E ts _ Hdict Henc Hsh Hts Hrows)
    as (out & Hcat & Hfuse & Hout).
  exists pc, encoder_out, out, r2. repeat split; try assumption.
  rewrite Hfwd, Hfuse. reflexivity.
Qed.

(** C3: for a dict observation space with a ["points"] point-cloud
    sub-space and at least one auxiliary vector sub-space, constructed
    with [state_embed_dim = D]: a linear projection from the combined
    auxiliary width [S] to [D] is created and the recorded state width is
    [D]; on a conforming batch of size [B] the forward pass concatenates
    the auxiliary fields in declared order, applies the projection,
    concatenates the result onto the pooled point embedding, and returns a
    tensor of shape [[B; embed_dim + D]], whatever [S] is. *)
Theorem forward_projected_state :
  forall spaces tokenizer_f pos_embedder_f transformer_encoder_f E D
         r self r' B pd items r1,
    __init__ (Dict spaces) tokenizer_f pos_embedder_f transformer_encoder_f
             E (Some D) r = Ok (self, r') ->
    Forall (fun s => vector_space s = true)
           (PyDict.values_except "points" spaces) ->
    PyDict.values_except "points" spaces <> [] ->
    contracts cloud batched self B E pd ->
    conforms cloud B (Dict spaces) (Node items) ->
    let S := first_dims (PyDict.values_except "points" spaces) in
    state_dim self = D
    /\ exists enc,
        state_encoder self = Some enc
        /\ in_features enc = S
        /\ out_features enc = D
        /\ exists pc encoder_out state projected out r2,
            PyDict.get items "points" = Some pc
            /\ encodes self pc r1 encoder_out r2
            /\ torch_concatenate (PyDict.values_except "points" items)
               = Ok state
            /\ shape state = [B; S]
            /\ Linear_forward enc state = Ok projected
            /\ torch_concatenate [Leaf encoder_out; Leaf projected] = Ok out
            /\ forward self (Node items) r1 = Ok (out, r2)
            /\ shape out = [B; E + D].
Proof.
  intros spaces tf pf tef E D r self r' B pd items r1 Hinit Hvec Hne K Hconf S.
  destruct (@init_state _ _ _ _ _ _ _ _ _ _ _ _ Hinit) as (Hdict & _ & _ & Hproj).
  destruct (Hproj eq_refl D eq_refl) as (Hdim & enc & Henc & Hin & Hout & Hw).
  simpl in Hdict, Hin, Hw.
  split; [exact Hdim|]. exists enc. repeat split; try assumption.
  destruct (@forward_reaches_fusion _ _ _ _ _ _ _ _ _ _ _ _ r1 Hinit K Hconf)
    as (pc & encoder_out & r2 & Hpc & Hrun & Hsh & Hfwd).
  simpl in Hpc. unfold PyDict.getitem in Hpc.
  destruct (PyDict.get items "points") as [pc'|] eqn:Hget; [|discriminate].
  inversion Hpc; subst pc'.
  inversion Hconf as [| |sp' it' Hall Hsp Hit]; subst sp' it'.
  destruct (@conforming_aux_items _ cloud B _ _ Hall Hvec)
    as (ts & Hts & Hrows).
  assert (Hts_ne : ts <> []).
  { intros ->. apply Forall2_length in Hrows. simpl in Hrows.
    destruct (PyDict.values_except "points" spaces);
      [contradiction|discriminate]. }
  destruct (@fuse_projected _ self items encoder_out B E D enc ts _
                            Hdict Henc Hw Hsh Hts Hrows Hts_ne)
    as (state & projected & out & Hcat & Hst & Hlin & _ & Hcat2 & Hfuse & Hosh).
  exists pc, encoder_out, state, projected, out, r2.
  repeat split; try assumption.
  rewrite Hfwd, Hfuse. reflexivity.
Qed.

Lemma init_aux_shapes obs_space tokenizer_f pos_embedder_f
      transformer_encoder_f E state_embed_dim r self r' :
  __init__ obs_space tokenizer_f pos_embedder_f transformer_encoder_f E
           state_embed_dim r = Ok (self, r') ->
  Forall (fun s => exists d sh, space_shape s = Some (d :: sh))
         (aux_spaces obs_space).
Proof.
  intros H. apply init_inv in H.
  destruct H as (ps & pd & tok & pe & te & pool & r1 & _ & _ & _
                 & _ & _ & _ & _ & H).
  unfold record_state in H. destruct obs_space as [sh|spaces|sh];
    try constructor.
  apply bind_Ok in H. destruct H as (S & r2 & HS & _).
  apply lift_Ok in HS. destruct HS as [HS _].
  eapply sum_shape0_shapes. exact HS.
Qed.

(** Whenever the forward pass of a constructed encoder returns on a
    conforming observation, the result's trailing dimension is the pooled
    width plus the recorded state width. *)
Lemma forward_width obs_space tokenizer_f pos_embedder_f
      transformer_encoder_f E state_embed_dim r self r' B pd observation r1
      out r2 :
  __init__ obs_space tokenizer_f pos_embedder_f transformer_encoder_f E
           state_embed_dim r = Ok (self, r') ->
  Forall (fun s => array_space s = true) (aux_spaces obs_space) ->
  contracts cloud batched self B E pd ->
  conforms cloud B obs_space observation ->
  forward self observation r1 = Ok (out, r2) ->
  last_dim out = E + state_dim self.
Proof.
  intros Hinit Harr K Hconf Hfwd.
  destruct (@forward_reaches_fusion _ _ _ _ _ _ _ _ _ _ _ _ r1 Hinit K Hconf)
    as (pc & encoder_out & r3 & Hpc & Henc & Hsh & Heq).
  rewrite Heq in Hfwd. apply lift_Ok in Hfwd. destruct Hfwd as [Hfuse _].
  pose proof (init_aux_shapes _ _ _ _ _ _ _ Hinit) as Hshapes.
  destruct (@init_state _ _ _ _ _ _ _ _ _ _ _ _ Hinit)
    as (Hdict & Hbare & Hraw & Hproj).
  destruct obs_space as [sh|spaces|sh].
  - destruct (Hbare eq_refl) as [_ ->].
    rewrite fuse_bare in Hfuse by exact Hdict. inversion Hfuse; subst out.
    rewrite (@last_dim_snoc _ encoder_out [B] E Hsh). lia.
  - inversion Hconf as [| |sp' items Hall Hsp Hit]; subst sp' observation.
    simpl in Harr, Hshapes, Hdict.
    destruct (@conforming_aux_arrays _ cloud B _ _ Hall Harr Hshapes)
      as (ts & Hts & Hb).
    destruct state_embed_dim as [D|].
    + destruct (Hproj eq_refl D eq_refl) as (Hdim & enc & Hse & _ & _ & Hw).
      rewrite Hdim.
      exact (@fuse_projected_width _ self items encoder_out B E D _ enc ts _
               out Hdict Hse Hw Hsh Hts Hb Hfuse).
    + destruct (Hraw eq_refl eq_refl) as [Hse Hdim]. rewrite Hdim.
      exact (@fuse_raw_width _ self items encoder_out B E ts _ out
               Hdict Hse Hsh Hts Hb Hfuse).
  - apply init_inv in Hinit.
    destruct Hinit as (ps & ? & ? & ? & ? & ? & ? & Hps & Hpc' & _).
    simpl in Hps. inversion Hps; subst. discriminate.
Qed.

(** C1: for every configuration that constructs (a bare point-cloud space,
    a dict space without state projection, a dict space with state
    projection) with array auxiliary sub-spaces, the [embed_dim] property
    is the transformer encoder's embedding width plus the recorded state
    width, and it is the trailing dimension of every tensor the forward
    pass returns on an observation conforming to the space, as long as the
    collaborators keep their contracts; the forward pass does return (a
    tensor of shape [[B; embed_dim]]) when the auxiliary sub-spaces are
    vector spaces and a projection has at least one field to project. *)
Theorem embed_dim_is_output_width :
  forall obs_space tokenizer_f pos_embedder_f transformer_encoder_f E
         state_embed_dim r self r' B pd observation r1,
    __init__ obs_space tokenizer_f pos_embedder_f transformer_encoder_f E
             state_embed_dim r = Ok (self, r') ->
    Forall (fun s => array_space s = true) (aux_spaces obs_space) ->
    contracts cloud batched self B E pd ->
    conforms cloud B obs_space observation ->
    exists e w,
      module_attr (transformer_encoder self) "embed_dim" = Ok e
      /\ w = e + state_dim self
      /\ embed_dim self = Ok w
      /\ (forall out r2,
             forward self observation r1 = Ok (out, r2) -> last_dim out = w)
      /\ (Forall (fun s => vector_space s = true) (aux_spaces obs_space) ->
          (state_embed_dim <> None -> is_Dict obs_space = true ->
           aux_spaces obs_space <> []) ->
          exists out r2,
            forward self observation r1 = Ok (out, r2)
            /\ shape out = [B; w]).
Proof.
  intros sp tf pf tef E sed r self r' B pd obs r1 Hinit Harr K Hconf.
  exists E, (E + state_dim self).
  split; [exact (transformer_encoder_width K)|].
  split; [reflexivity|].
  split; [exact (embed_dim_value K)|].
  split.
  { intros out r2 Hfwd.
    exact (@forward_width _ _ _ _ _ _ _ _ _ _ _ _ _ _ _ Hinit Harr K Hconf
             Hfwd). }
  intros Hvec Hne.
  destruct sp as [sh|spaces|sh].
  - inversion Hconf as [sh' pc Hcloud Hsh' Hpc| |]; subst sh' pc.
    destruct (@forward_bare_point_cloud _ _ _ _ _ _ _ _ _ _ _ _ r1 Hinit K Hcloud)
      as (out & r2 & _ & Hfwd & Hsh & _).
    destruct (@init_state _ _ _ _ _ _ _ _ _ _ _ _ Hinit) as (_ & Hbare & _).
    destruct (Hbare eq_refl) as [_ ->].
    exists out, r2. rewrite Z.add_0_r. auto.
  - inversion Hconf as [| |sp' items Hall Hsp Hit]; subst sp' obs.
    simpl in Hvec, Hne.
    destruct sed as [D|].
    + assert (Hne' : PyDict.values_except "points" spaces <> [])
        by (apply Hne; [discriminate|reflexivity]).
      destruct (@forward_projected_state _ _ _ _ _ _ _ _ _ _ _ _ r1
                                          Hinit Hvec Hne' K Hconf)
        as (Hdim & enc & _ & _ & _ & pc & eo & st & pj & out & r2
            & _ & _ & _ & _ & _ & _ & Hfwd & Hsh).
      exists out, r2. rewrite Hdim. auto.
    + destruct (@forward_raw_state _ _ _ _ _ _ _ _ _ _ _ r1 Hinit Hvec K Hconf)
        as (_ & Hdim & pc & eo & out & r2 & _ & _ & _ & Hfwd & Hsh).
      exists out, r2. rewrite Hdim. auto.
  - apply init_inv in Hinit.
    destruct Hinit as (ps & ? & ? & ? & ? & ? & ? & Hps & Hpc & _).
    simpl in Hps. inversion Hps; subst. discriminate.
Qed.

End ForwardClaims.

Section Determinism.

Context {N : Numeric} {R : Random} {C : Collaborators}.

Lemma value_bind (A B : Type) (m : M A) (f : A -> M B) r1 r2 :
  value (m r1) = value (m r2) ->
  (forall a ra rb, value (f a ra) = value (f a rb)) ->
  value (bind m f r1) = value (bind m f r2).
Proof.
  unfold bind. intros Hm Hf.
  destruct (m r1) as [[a ra]|e1], (m r2) as [[b rb]|e2]; simpl in Hm;
    inversion Hm; subst; auto.
Qed.

Lemma value_lift (A : Type) (x : result A) r1 r2 :
  value (lift x r1) = value (lift x r2).
Proof. unfold lift. destruct x; reflexivity. Qed.

Lemma value_ret (A : Type) (a : A) r1 r2 : value (ret a r1) = value (ret a r2).
Proof. reflexivity. Qed.

(** C7: with fixed weights and collaborators whose results do not depend
    on the state of the random generator, two forward calls on the same
    observation give the same outcome: the forward pass itself draws
    nothing, and its result depends on the observation and the stored
    parameters only. *)
Theorem forward_deterministic :
  forall self,
    deterministic self ->
    forall observation r1 r2,
      value (forward self observation r1) = value (forward self observation r2).
Proof.
  intros self [Hd Ht Hp He Ho] obs r1 r2. unfold forward.
  apply value_bind; [apply value_lift|]. intros pc ra rb.
  apply value_bind; [apply Hd|]. intros [[pos batch] color] rc rd.
  apply value_bind; [apply Ht|]. intros [[x aux] centers] re rf.
  apply value_bind; [apply Hp|]. intros p rg rh.
  apply value_bind; [apply He|]. intros y ri rj.
  apply value_bind; [apply Ho|]. intros encoder_out rk rl.
  destruct (obs_is_dict self); [|apply value_ret].
  apply value_bind; [apply value_lift|]. intros items rm rn.
  apply value_bind.
  - destruct (state_encoder self) as [enc|]; [|apply value_ret].
    apply value_bind; [apply value_lift|]. intros state ro rp.
    apply value_bind; [apply value_lift|]. intros state' rq rs.
    apply value_ret.
  - intros state ro rp. apply value_lift.
Qed.

End Determinism.

(** * The small instance satisfies the contracts *)

Section DemoFacts.

Import Demo.

Lemma demo_bare_built :
  __init__ bare_space tokenizer_f pos_embedder_f transformer_encoder_f 4
           None 0%nat = Ok (bare_encoder, 101%nat).
Proof. vm_compute. reflexivity. Qed.

Lemma demo_raw_built :
  __init__ composite_space tokenizer_f pos_embedder_f transformer_encoder_f 4
           None 0%nat = Ok (raw_encoder, 101%nat).
Proof. vm_compute. reflexivity. Qed.

Lemma demo_projected_built :
  __init__ composite_space tokenizer_f pos_embedder_f transformer_encoder_f 4
           (Some 16) 0%nat = Ok (projected_encoder, 245%nat).
Proof. vm_compute. reflexivity. Qed.

Lemma demo_image_built :
  __init__ image_space tokenizer_f pos_embedder_f transformer_encoder_f 4
           None 0%nat = Ok (image_encoder, 101%nat).
Proof. vm_compute. reflexivity. Qed.

Lemma demo_contracts self B E pd :
  attr2 (tokenizer self) "embed_dim" "point_dim" = Some (E, pd) ->
  attr2 (pos_embedder self) "token_dim" "token_dim" = Some (E, E) ->
  module_attr (transformer_encoder self) "embed_dim" = Ok E ->
  contracts cloud batched self B E pd.
Proof.
  intros Htok Hpe Hte. constructor.
  - intros pc r (pos & ptr & -> & Hptr).
    exists pos, ptr, None, r. split; [reflexivity|exact Hptr].
  - intros pos batch color r Hb. unfold batched in Hb.
    exists (zeros [B; 2; E]), (zeros [B; 2]), (zeros [B; 2; pd]), r, 2.
    simpl. unfold tokenize. rewrite Htok, Hb. auto.
  - intros centers n r Hc. exists (zeros [B; n; E]), r.
    simpl. unfold embed_positions. rewrite Hpe, Hc. auto.
  - intros x p n r Hx Hp. exists x, r.
    simpl. unfold contextualise. rewrite Hx, Hp, shape_eqb_refl. auto.
  - exact Hte.
  - intros x n r Hx. exists (zeros [B; E]), r.
    simpl. unfold pool. rewrite Hx. auto.
Qed.

Lemma demo_deterministic self : deterministic self.
Proof. constructor; intros; simpl; apply value_lift. Qed.


Lemma demo_cloud B : cloud B (points B).
Proof. unfold cloud, points. eexists. eexists. split; reflexivity. Qed.

Lemma demo_conforms B : conforms cloud B composite_space (composite_obs B).
Proof.
  unfold composite_space, composite_obs. constructor.
  repeat constructor. simpl. apply demo_cloud.
Qed.

End DemoFacts.

(** * The claims at concrete inputs *)

Section Instances.

Import Demo.

Lemma embed_dim_is_output_width_witness :
  exists out r2,
    __init__ composite_space tokenizer_f pos_embedder_f transformer_encoder_f
             4 (Some 16) 0%nat = Ok (projected_encoder, 245%nat)
    /\ Forall (fun s => array_space s = true) (aux_spaces composite_space)
    /\ contracts cloud batched projected_encoder 2 4 3
    /\ conforms cloud 2 composite_space (composite_obs 2)
    /\ embed_dim projected_encoder = Ok 20
    /\ forward projected_encoder (composite_obs 2) 0%nat = Ok (out, r2)
    /\ shape out = [2; 20]
    /\ last_dim out = 20.
Proof.
  assert (Harr : Forall (fun s => array_space s = true)
                        (aux_spaces composite_space))
    by (repeat constructor).
  assert (Hvec : Forall (fun s => vector_space s = true)
                        (aux_spaces composite_space))
    by (repeat constructor).
  assert (Hne : Some 16 <> None -> is_Dict composite_space = true ->
                aux_spaces composite_space <> [])
    by (intros _ _; discriminate).
  assert (K : contracts cloud batched projected_encoder 2 4 3)
    by (apply demo_contracts; reflexivity).
  destruct (@embed_dim_is_output_width numeric random collaborators
              cloud batched _ _ _ _ _ _ _ _ _
              2 3 _ 0%nat demo_projected_built Harr K (demo_conforms 2))
    as (e & w & He & Hw & Hed & Hpart & Htot).
  assert (Hw20 : w = 20) by (vm_compute in Hed; inversion Hed; reflexivity).
  destruct (Htot Hvec Hne) as (out & r2 & Hfwd & Hsh).
  pose proof (Hpart out r2 Hfwd) as Hlast.
  rewrite Hw20 in Hed, Hsh, Hlast. exists out, r2.
  exact (conj demo_projected_built
           (conj Harr (conj K (conj (demo_conforms 2)
              (conj Hed (conj Hfwd (conj Hsh Hlast))))))).
Defined.

Lemma init_weights_cover_components_witness :
  __init__ composite_space tokenizer_f pos_embedder_f transformer_encoder_f
           4 (Some 16) 0%nat = Ok (projected_encoder, 245%nat)
  /\ Forall zero_bias (flat_map linears (components projected_encoder))
  /\ Forall unit_norm (owned_layer_norms projected_encoder).
Proof.
  split; [exact demo_projected_built|].
  destruct (@init_weights_cover_components numeric random collaborators _ _ _ _ _ _ _ _ _
              demo_projected_built) as (Hl & Hn & _).
  split; assumption.
Defined.

(** After a construction with a state projection, the projection's bias is
    what the default constructor drew, not 0. *)
Lemma state_projection_bias_not_zero :
  __init__ composite_space tokenizer_f pos_embedder_f transformer_encoder_f
           4 (Some 16) 0%nat = Ok (projected_encoder, 245%nat)
  /\ ~ Forall zero_bias (owned_linears projected_encoder).
Proof.
  split; [exact demo_projected_built|].
  unfold owned_linears. intros H. apply Forall_app in H. destruct H as [_ H].
  simpl in H. inversion H as [|enc l Hz _]; subst.
  unfold zero_bias, filled in Hz. simpl in Hz.
  inversion Hz as [|q qs Hq _]. discriminate Hq.
Qed.

Lemma forward_projected_state_witness :
  exists out r2,
    __init__ composite_space tokenizer_f pos_embedder_f transformer_encoder_f
             4 (Some 16) 0%nat = Ok (projected_encoder, 245%nat)
    /\ Forall (fun s => vector_space s = true)
              (PyDict.values_except "points"
                 [("gripper", OtherSpace (Some [3]));
                  ("points", PointCloudSpace (Some [3]));
                  ("joints", OtherSpace (Some [5]))])
    /\ contracts cloud batched projected_encoder 2 4 3
    /\ conforms cloud 2 composite_space (composite_obs 2)
    /\ state_dim projected_encoder = 16
    /\ forward projected_encoder (composite_obs 2) 0%nat = Ok (out, r2)
    /\ shape out = [2; 4 + 16].
Proof.
  assert (Hvec : Forall (fun s => vector_space s = true)
                        (PyDict.values_except "points"
                           [("gripper", OtherSpace (Some [3]));
                            ("points", PointCloudSpace (Some [3]));
                            ("joints", OtherSpace (Some [5]))]))
    by (repeat constructor).
  assert (Hne : PyDict.values_except "points"
                  [("gripper", OtherSpace (Some [3]));
                   ("points", PointCloudSpace (Some [3]));
                   ("joints", OtherSpace (Some [5]))] <> [])
    by discriminate.
  assert (K : contracts cloud batched projected_encoder 2 4 3)
    by (apply demo_contracts; reflexivity).
  destruct (@forward_projected_state numeric random collaborators cloud batched _ _ _ _ _ _ _ _ _
              2 3 _ 0%nat demo_projected_built Hvec Hne K (demo_conforms 2))
    as (Hdim & enc & _ & _ & _ & pc & eo & st & pj & out & r2
        & _ & _ & _ & _ & _ & _ & Hfwd & Hsh).
  exists out, r2.
  exact (conj demo_projected_built
           (conj Hvec (conj K (conj (demo_conforms 2)
              (conj Hdim (conj Hfwd Hsh)))))).
Defined.

Lemma forward_raw_state_witness :
  exists out r2,
    __init__ composite_space tokenizer_f pos_embedder_f transformer_encoder_f
             4 None 0%nat = Ok (raw_encoder, 101%nat)
    /\ contracts cloud batched raw_encoder 2 4 3
    /\ conforms cloud 2 composite_space (composite_obs 2)
    /\ state_encoder raw_encoder = None
    /\ state_dim raw_encoder = 8
    /\ forward raw_encoder (composite_obs 2) 0%nat = Ok (out, r2)
    /\ shape out = [2; 4 + 8].
Proof.
  assert (Hvec : Forall (fun s => vector_space s = true)
                        (PyDict.values_except "points"
                           [("gripper", OtherSpace (Some [3]));
                            ("points", PointCloudSpace (Some [3]));
                            ("joints", OtherSpace (Some [5]))]))
    by (repeat constructor).
  assert (K : contracts cloud batched raw_encoder 2 4 3)
    by (apply demo_contracts; reflexivity).
  destruct (@forward_raw_state numeric random collaborators cloud batched _ _ _ _ _ _ _ _
              2 3 _ 0%nat demo_raw_built Hvec K (demo_conforms 2))
    as (Henc & Hdim & pc & eo & out & r2 & _ & _ & _ & Hfwd & Hsh).
  exists out, r2.
  exact (conj demo_raw_built
           (conj K (conj (demo_conforms 2)
              (conj Henc (conj Hdim (conj Hfwd Hsh)))))).
Defined.

Lemma forward_bare_point_cloud_witness :
  exists out r2,
    __init__ bare_space tokenizer_f pos_embedder_f transformer_encoder_f
             4 None 0%nat = Ok (bare_encoder, 101%nat)
    /\ contracts cloud batched bare_encoder 2 4 3
    /\ cloud 2 (points 2)
    /\ forward bare_encoder (points 2) 0%nat = Ok (out, r2)
    /\ shape out = [2; 4]
    /\ embed_dim bare_encoder = Ok 4.
Proof.
  assert (K : contracts cloud batched bare_encoder 2 4 3)
    by (apply demo_contracts; reflexivity).
  destruct (@forward_bare_point_cloud numeric random collaborators cloud batched _ _ _ _ _ _ _ _ _
              2 3 _ 0%nat demo_bare_built K (demo_cloud 2))
    as (out & r2 & _ & Hfwd & Hsh & Hed).
  exists out, r2.
  exact (conj demo_bare_built
           (conj K (conj (demo_cloud 2) (conj Hfwd (conj Hsh Hed))))).
Defined.



Lemma forward_deterministic_witness :
  deterministic bare_encoder
  /\ value (forward bare_encoder (points 2) 0%nat)
     = value (forward bare_encoder (points 2) 7%nat).
Proof.
  split; [apply demo_deterministic|].
  apply (@forward_deterministic numeric random collaborators bare_encoder
           (demo_deterministic bare_encoder)).
Defined.

Lemma bare_ignores_state_embed_dim_witness :
  is_Dict bare_space = false
  /\ __init__ bare_space tokenizer_f pos_embedder_f transformer_encoder_f
              4 (Some 7) 0%nat
     = __init__ bare_space tokenizer_f pos_embedder_f transformer_encoder_f
                4 None 0%nat.
Proof.
  split; [reflexivity|].
  exact (proj1 (@bare_ignores_state_embed_dim numeric random collaborators bare_space tokenizer_f
                  pos_embedder_f transformer_encoder_f 4 (Some 7) 0%nat
                  eq_refl)).
Defined.

Lemma init_missing_points_witness :
  PyDict.get no_points "points" = None
  /\ __init__ (Dict no_points) tokenizer_f pos_embedder_f
              transformer_encoder_f 4 None 0%nat = Err KeyError.
Proof.
  split; [reflexivity|].
  exact (proj1 (@init_missing_points numeric random collaborators no_points tokenizer_f
                  pos_embedder_f transformer_encoder_f 4 None 0%nat
                  eq_refl)).
Defined.

Lemma state_width_sums_first_dims_witness :
  __init__ image_space tokenizer_f pos_embedder_f transformer_encoder_f
           4 None 0%nat = Ok (image_encoder, 101%nat)
  /\ state_encoder image_encoder = None
  /\ state_dim image_encoder = 2.
Proof.
  split; [exact demo_image_built|].
  exact (proj2 (@state_width_sums_first_dims numeric random collaborators _ _ _ _ _ _ _ _ _
                  demo_image_built)).
Defined.

End Instances.

(** * Further properties of the initialisation pass *)

Section InitialisationPass.

Context {N : Numeric} {R : Random}.

Lemma mapM_Forall2 (A B : Type) (f : A -> M B) (Q : A -> B -> Prop) l :
  Forall (fun a => forall r b r', f a r = Ok (b, r') -> Q a b) l ->
  forall r bs r', mapM f l r = Ok (bs, r') -> Forall2 Q l bs.
Proof.
  induction 1 as [|a l Ha _ IH]; simpl; intros r bs r' H.
  - inversion H. constructor.
  - apply bind_Ok in H. destruct H as (b & r1 & Hb & H).
    apply bind_Ok in H. destruct H as (bs' & r2 & Hbs & H).
    inversion H; subst. constructor; eauto.
Qed.

(** X1: the initialisation pass changes the elements of linear and
    normalisation parameters only: classes, attributes, parameter shapes,
    the presence of biases, and the parameters that modules of other
    classes own are what they were. *)
Theorem init_weights_keeps_skeleton :
  forall m r m' r',
    apply _init_weights m r = Ok (m', r') -> skeleton m' = skeleton m.
Proof.
  induction m as [l|w b|attrs params children IH] using Module_tree_ind;
    intros r m' r' H; simpl in H.
  - apply bind_Ok in H. destruct H as (wt & r1 & Hw & H).
    inversion H; subst. apply fill_shape in Hw. simpl. unfold erase.
    rewrite Hw. destruct (bias l); reflexivity.
  - destruct b as [bt|]; [|discriminate].
    destruct w as [wt|]; [|discriminate].
    inversion H; subst. reflexivity.
  - apply bind_Ok in H. destruct H as (cs & r1 & Hcs & H).
    inversion H; subst. simpl. f_equal.
    assert (Hall : Forall2 (fun c c' => skeleton c' = skeleton c) children cs).
    { eapply mapM_Forall2; [|exact Hcs].
      eapply Forall_impl; [|exact IH]. intros c Hc; intros; eauto. }
    clear -Hall. induction Hall as [|c c' cs cs' Hc _ IHc]; simpl;
      [reflexivity|]. rewrite Hc, IHc. reflexivity.
Qed.

Lemma module_attr_skeleton m name :
  module_attr (skeleton m) name = module_attr m name.
Proof. destruct m; reflexivity. Qed.

Lemma mapM_init_weights_fails cs :
  Forall (fun c => forall r,
              affine c = false -> apply _init_weights c r = Err AttributeError)
         cs ->
  forallb affine_norm (flat_map layer_norms cs) = false ->
  forall r, mapM (apply _init_weights) cs r = Err AttributeError.
Proof.
  induction 1 as [|c cs Hc _ IH]; simpl; intros Ha r; [discriminate|].
  rewrite forallb_app in Ha.
  destruct (forallb affine_norm (layer_norms c)) eqn:Hac.
  - destruct (init_weights_returns c Hac r) as (c' & r1 & Hok).
    erewrite bind_step by exact Hok.
    apply bind_fail. apply IH. exact Ha.
  - apply bind_fail. apply Hc. exact Hac.
Qed.

(** X2: the initialisation pass returns exactly when every layer
    normalisation in the tree has both a scale and a bias; a normalisation
    without them makes the pass raise AttributeError (the bias of a linear
    layer is guarded, the parameters of a normalisation are not). *)
Theorem init_weights_outcome :
  forall m r,
    if affine m
    then exists m' r', apply _init_weights m r = Ok (m', r')
    else apply _init_weights m r = Err AttributeError.
Proof.
  intros m r. destruct (affine m) eqn:Ha.
  - apply init_weights_returns. exact Ha.
  - revert r Ha.
    induction m as [l|w b|attrs params children IH] using Module_tree_ind;
      intros r Ha.
    + discriminate.
    + unfold affine in Ha. simpl in Ha. simpl.
      destruct b as [bt|]; [|reflexivity].
      destruct w as [wt|]; [discriminate|reflexivity].
    + unfold affine in Ha. simpl in Ha. simpl.
      apply bind_fail. apply mapM_init_weights_fails; [|exact Ha].
      eapply Forall_impl; [|exact IH]. intros c Hc r0 Hc0. apply Hc. exact Hc0.
Qed.

End InitialisationPass.

(** * Further properties of the construction *)

Section ConstructionOutcomes.

Context {N : Numeric} {R : Random} {C : Collaborators}.

Local Open Scope monad_scope.

Variable obs_space : Space.
Variable tokenizer_f : Z -> Z -> M Module.
Variables pos_embedder_f transformer_encoder_f : Z -> M Module.
Variable E : Z.
Variable state_embed_dim : option Z.

Local Abbreviation construct' :=
  (__init__ obs_space tokenizer_f pos_embedder_f transformer_encoder_f E
            state_embed_dim).

(** X3: when the four component constructors return but one of the
    returned modules holds a layer normalisation without scale or bias,
    the construction raises AttributeError in its initialisation pass. *)
Theorem init_fails_on_plain_norm :
  forall ps pd r tok pe te pool r1 r2 r3 r4,
    point_subspace obs_space = Some ps ->
    is_PointCloudSpace ps = true ->
    shape0 (space_shape ps) = Ok pd ->
    tokenizer_f pd E r = Ok (tok, r1) ->
    pos_embedder_f E r1 = Ok (pe, r2) ->
    transformer_encoder_f E r2 = Ok (te, r3) ->
    SequencePooling E r3 = Ok (pool, r4) ->
    affine tok && affine pe && affine te && affine pool = false ->
    construct' r = Err AttributeError.
Proof.
  intros ps pd r tok pe te pool r1 r2 r3 r4 Hps Hpc Hpd Ht Hp He Ho Ha.
  unfold __init__.
  erewrite bind_step by (apply init_point_subspace; exact Hps).
  rewrite Hpc. erewrite bind_step by reflexivity.
  erewrite bind_step by (apply lift_step; exact Hpd).
  erewrite bind_step by exact Ht. erewrite bind_step by exact Hp.
  erewrite bind_step by exact He. erewrite bind_step by exact Ho.
  pose proof (init_weights_outcome tok r4) as Otok.
  destruct (affine tok); [|apply bind_fail; exact Otok].
  destruct Otok as (tok' & r5 & Otok). erewrite bind_step by exact Otok.
  pose proof (init_weights_outcome pe r5) as Ope.
  destruct (affine pe); [|apply bind_fail; exact Ope].
  destruct Ope as (pe' & r6 & Ope). erewrite bind_step by exact Ope.
  pose proof (init_weights_outcome te r6) as Ote.
  destruct (affine te); [|apply bind_fail; exact Ote].
  destruct Ote as (te' & r7 & Ote). erewrite bind_step by exact Ote.
  pose proof (init_weights_outcome pool r7) as Opool.
  destruct (affine pool); [discriminate|apply bind_fail; exact Opool].
Qed.




(** X6: the [embed_dim] property of a constructed encoder reads the
    attribute of the object the transformer-encoder factory returned and
    adds the recorded state width; the [embed_dim] argument of the
    constructor reaches it through that object only. *)
Theorem embed_dim_reads_factory_object :
  forall r self r',
    construct' r = Ok (self, r') ->
    exists te ra rb,
      transformer_encoder_f E ra = Ok (te, rb)
      /\ embed_dim self
         = rbind (module_attr te "embed_dim")
                 (fun e => Ok (e + state_dim self)).
Proof.
  intros r self r' H. apply init_inv in H.
  destruct H as (ps & pd & tok & pe & te & pool & r1 & _ & _ & _
                 & _ & _ & (te0 & ra & rb & rc & rd & Hte0 & Hte) & _ & H).
  exists te0, ra, rb. split; [exact Hte0|].
  assert (Hself : transformer_encoder self = te).
  { unfold record_state in H. destruct obs_space as [sh|spaces|sh].
    - inversion H. reflexivity.
    - apply bind_Ok in H. destruct H as (S & r2 & _ & H).
      destruct state_embed_dim as [d|].
      + apply bind_Ok in H. destruct H as (enc & r3 & _ & H).
        inversion H. reflexivity.
      + inversion H. reflexivity.
    - inversion H. reflexivity. }
  unfold embed_dim. rewrite Hself.
  apply init_weights_keeps_skeleton in Hte.
  rewrite <- (module_attr_skeleton te), Hte, module_attr_skeleton.
  reflexivity.
Qed.

End ConstructionOutcomes.

(** * Further properties of the forward pass *)

Section ForwardOutcomes.

Context {N : Numeric} {R : Random} {C : Collaborators}.

Variable cloud : Z -> ArrayTree -> Prop.
Variable batched : Z -> Tensor -> Tensor -> option Tensor -> Prop.

Lemma batch_rows_vectors B ts ss :
  Forall2 (batch_of B) ts ss ->
  Forall (fun u => exists v, shape u = [B] ++ [v]) ts ->
  Forall (fun s => exists w, space_shape s = Some [w]) ss.
Proof.
  induction 1 as [|t s ts ss (d & sh & Hs & Ht) _ IH]; intros Hr;
    constructor.
  - inversion Hr as [|? ? (v & Hv) _]; subst.
    rewrite Ht in Hv. inversion Hv; subst. eauto.
  - apply IH. inversion Hr. assumption.
Qed.

Lemma fuse_raw_vectors self items encoder_out B E ts ss out :
  obs_is_dict self = true -> state_encoder self = None ->
  shape encoder_out = [B; E] ->
  PyDict.values_except "points" items = map Leaf ts ->
  Forall2 (batch_of B) ts ss ->
  fuse self (Node items) encoder_out = Ok out ->
  Forall (fun s => exists w, space_shape s = Some [w]) ss.
Proof.
  intros Hd Hs He Hts Hb H. unfold fuse in H. rewrite Hd, Hs in H.
  cbn [tree_items rbind] in H. rewrite Hts in H.
  change (Leaf encoder_out :: map Leaf ts)
    with (map Leaf (encoder_out :: ts)) in H.
  apply concatenate_inv in H.
  2:{ constructor; [rewrite He; discriminate|].
      eapply batch_not_skipped; exact Hb. }
  destruct H as (t & rest & lead & w & Heq & Ht & Hrest & _).
  inversion Heq; subst t rest. rewrite He in Ht.
  change [B; E] with ([B] ++ [E]) in Ht.
  apply app_inj_tail in Ht. destruct Ht as [<- _].
  exact (batch_rows_vectors Hb Hrest).
Qed.

Lemma fuse_projected_vectors self items encoder_out B E D S enc ts ss out :
  obs_is_dict self = true -> state_encoder self = Some enc ->
  shape (weight enc) = [D; S] ->
  shape encoder_out = [B; E] ->
  PyDict.values_except "points" items = map Leaf ts ->
  Forall2 (batch_of B) ts ss ->
  fuse self (Node items) encoder_out = Ok out ->
  ss <> [] /\ Forall (fun s => exists w, space_shape s = Some [w]) ss.
Proof.
  intros Hd Hs Hw He Hts Hb H. unfold fuse in H. rewrite Hd, Hs in H.
  cbn [tree_items rbind] in H. rewrite Hts in H.
  destruct (torch_concatenate (map Leaf ts)) as [state|e] eqn:Hcat;
    [|discriminate].
  cbn [rbind] in H.
  destruct (Linear_forward enc state) as [projected|e] eqn:Hlin;
    [|discriminate].
  cbn [rbind] in H.
  apply concatenate_inv in Hcat; [|eapply batch_not_skipped; exact Hb].
  destruct Hcat as (t & rest & lead & w & Heq & Ht & Hrest & Hstate).
  destruct (@Linear_forward_inv _ enc state projected D S Hw Hlin)
    as (lead' & Hx & Hy).
  rewrite Hstate in Hx. apply app_inj_tail in Hx. destruct Hx as [<- _].
  change [Leaf encoder_out; Leaf projected]
    with (map Leaf [encoder_out; projected]) in H.
  assert (Hlead : exists l, lead = B :: l).
  { subst ts. inversion Hb as [|? s ? ss' (d & sh & _ & Hsh) _]; subst.
    rewrite Hsh in Ht. destruct lead as [|b l]; [discriminate|].
    inversion Ht. eauto. }
  destruct Hlead as (l & Hl).
  apply concatenate_inv in H.
  2:{ constructor; [rewrite He; discriminate|].
      constructor; [|constructor]. rewrite Hy, Hl. destruct l; discriminate. }
  destruct H as (t' & rest' & lead2 & w2 & Heq' & Ht' & Hrest' & _).
  inversion Heq'; subst t' rest'. rewrite He in Ht'.
  change [B; E] with ([B] ++ [E]) in Ht'.
  apply app_inj_tail in Ht'. destruct Ht' as [<- _].
  inversion Hrest' as [|u us (v & Hv) _ Hus].
  rewrite Hy in Hv. apply app_inj_tail in Hv. destruct Hv as [Hlead _].
  rewrite Hlead in Ht, Hrest. split.
  - rewrite Heq in Hb. inversion Hb. discriminate.
  - apply (@batch_rows_vectors B ts ss Hb). rewrite Heq.
    constructor; [eauto|exact Hrest].
Qed.

(** X7: the forward pass of a constructed encoder returns a tensor on a
    conforming observation only if every auxiliary sub-space is
    one-dimensional and a projection has at least one field to project:
    with an auxiliary array of two or more dimensions, or a projection
    over no field, every forward call raises. *)
Theorem forward_returns_only_on_vectors :
  forall obs_space tokenizer_f pos_embedder_f transformer_encoder_f E
         state_embed_dim r self r' B pd observation r1 out r2,
    __init__ obs_space tokenizer_f pos_embedder_f transformer_encoder_f E
             state_embed_dim r = Ok (self, r') ->
    Forall (fun s => array_space s = true) (aux_spaces obs_space) ->
    contracts cloud batched self B E pd ->
    conforms cloud B obs_space observation ->
    forward self observation r1 = Ok (out, r2) ->
    Forall (fun s => exists w, space_shape s = Some [w]) (aux_spaces obs_space)
    /\ (state_embed_dim <> None -> is_Dict obs_space = true ->
        aux_spaces obs_space <> []).
Proof.
  intros sp tf pf tef E sed r self r' B pd obs r1 out r2
         Hinit Harr K Hconf Hfwd.
  destruct (@forward_reaches_fusion _ _ _ cloud batched _ _ _ _ _ _ _ _ _
              _ _ _ r1 Hinit K Hconf)
    as (pc & encoder_out & r3 & Hpc & Henc & Hsh & Heq).
  rewrite Heq in Hfwd. apply lift_Ok in Hfwd. destruct Hfwd as [Hfuse _].
  pose proof (@init_aux_shapes _ _ _ _ _ _ _ _ _ _ _ _ Hinit) as Hshapes.
  destruct (@init_state _ _ _ _ _ _ _ _ _ _ _ _ Hinit)
    as (Hdict & Hbare & Hraw & Hproj).
  destruct sp as [sh|spaces|sh].
  - simpl. split; [constructor|discriminate].
  - inversion Hconf as [| |sp' items Hall Hsp Hit]; subst sp' obs.
    simpl in Harr, Hshapes, Hdict. simpl.
    destruct (@conforming_aux_arrays _ cloud B _ _ Hall Harr Hshapes)
      as (ts & Hts & Hb).
    destruct sed as [D|].
    + destruct (Hproj eq_refl D eq_refl) as (Hdim & enc & Hse & _ & _ & Hw).
      destruct (@fuse_projected_vectors self items encoder_out B E D _ enc
                  ts _ out Hdict Hse Hw Hsh Hts Hb Hfuse) as [Hne Hv].
      split; [exact Hv|]. intros _ _. exact Hne.
    + destruct (Hraw eq_refl eq_refl) as [Hse Hdim].
      split; [|intros Habs; contradiction].
      exact (@fuse_raw_vectors self items encoder_out B E ts _ out
               Hdict Hse Hsh Hts Hb Hfuse).
  - simpl. split; [constructor|discriminate].
Qed.


End ForwardOutcomes.

Section SecondaryOutput.

Context {N : Numeric} {R : Random}.

Lemma bind_agree (A B : Type) (m1 m2 : M A) (f1 f2 : A -> M B) r :
  m1 r = m2 r -> (forall a r', f1 a r' = f2 a r') ->
  bind m1 f1 r = bind m2 f2 r.
Proof.
  unfold bind. intros -> Hf. destruct (m2 r) as [[a r']|e]; auto.
Qed.

Lemma bind_drop_secondary (B : Type)
      (m1 m2 : M (Tensor * Tensor * Tensor))
      (f1 f2 : Tensor * Tensor * Tensor -> M B) r :
  drop_secondary (m1 r) = drop_secondary (m2 r) ->
  (forall x a a' c r', f1 (x, a, c) r' = f2 (x, a', c) r') ->
  bind m1 f1 r = bind m2 f2 r.
Proof.
  unfold bind. intros Hm Hf.
  destruct (m1 r) as [[[[x a] c] r1]|e], (m2 r) as [[[[x' a'] c'] r2]|e'];
    simpl in Hm; inversion Hm; subst; auto.
Qed.

(** X9: the forward pass never uses the tokenizer's secondary output: two
    sets of collaborators that agree on everything but that output give
    the same forward result. *)
Theorem forward_ignores_secondary_output :
  forall (C1 C2 : Collaborators) self observation r,
    (forall pc r0,
        @dict_to_batched_data _ _ C1 pc r0 = @dict_to_batched_data _ _ C2 pc r0) ->
    (forall m pos batch color r0,
        drop_secondary (@call_tokenizer _ _ C1 m pos batch color r0)
        = drop_secondary (@call_tokenizer _ _ C2 m pos batch color r0)) ->
    (forall m c r0,
        @call_pos_embedder _ _ C1 m c r0 = @call_pos_embedder _ _ C2 m c r0) ->
    (forall m x p r0,
        @call_transformer_encoder _ _ C1 m x p r0
        = @call_transformer_encoder _ _ C2 m x p r0) ->
    (forall m x r0, @call_pooling _ _ C1 m x r0 = @call_pooling _ _ C2 m x r0) ->
    @forward _ _ C1 self observation r = @forward _ _ C2 self observation r.
Proof.
  intros C1 C2 self obs r Hd Ht Hp He Ho. unfold forward.
  apply bind_agree; [reflexivity|]. intros pc ra.
  apply bind_agree; [apply Hd|]. intros [[pos batch] color] rb.
  apply bind_drop_secondary; [apply Ht|]. intros x a a' c rc.
  apply bind_agree; [apply Hp|]. intros p rd.
  apply bind_agree; [apply He|]. intros y re.
  apply bind_agree; [apply Ho|]. intros encoder_out rf. reflexivity.
Qed.

End SecondaryOutput.

(** * The further properties at concrete inputs *)

Section FurtherInstances.

Import Demo.



Lemma init_weights_keeps_skeleton_witness :
  exists m' r',
    @apply numeric random _init_weights class_token_module 0%nat = Ok (m', r')
    /\ skeleton m' = skeleton class_token_module.
Proof.
  destruct (@apply numeric random _init_weights class_token_module 0%nat)
    as [[m' r']|e] eqn:H; [|vm_compute in H; discriminate].
  exists m', r'. split; [reflexivity|].
  exact (@init_weights_keeps_skeleton numeric random class_token_module
           0%nat m' r' H).
Defined.

Lemma init_fails_on_plain_norm_witness :
  point_subspace bare_space = Some (PointCloudSpace (Some [3]))
  /\ affine (nn_Module [("embed_dim", 4)] [] [nn_LayerNorm None None]) = false
  /\ __init__ bare_space tokenizer_f pos_embedder_f plain_norm_f 4 None 0%nat
     = Err AttributeError.
Proof.
  split; [reflexivity|]. split; [reflexivity|].
  eapply (@init_fails_on_plain_norm numeric random collaborators bare_space
            tokenizer_f pos_embedder_f plain_norm_f 4 None
            (PointCloudSpace (Some [3])) 3 0%nat); reflexivity.
Defined.



Lemma embed_dim_reads_factory_object_witness :
  __init__ bare_space tokenizer_f pos_embedder_f transformer_encoder_f
           4 None 0%nat = Ok (bare_encoder, 101%nat)
  /\ exists te ra rb,
      transformer_encoder_f 4 ra = Ok (te, rb)
      /\ embed_dim bare_encoder
         = rbind (module_attr te "embed_dim")
                 (fun e => Ok (e + state_dim bare_encoder)).
Proof.
  split; [exact demo_bare_built|].
  exact (@embed_dim_reads_factory_object numeric random collaborators
           bare_space tokenizer_f pos_embedder_f transformer_encoder_f 4 None
           0%nat bare_encoder 101%nat demo_bare_built).
Defined.

Lemma forward_returns_only_on_vectors_witness :
  exists out r2,
    __init__ composite_space tokenizer_f pos_embedder_f transformer_encoder_f
             4 None 0%nat = Ok (raw_encoder, 101%nat)
    /\ contracts cloud batched raw_encoder 2 4 3
    /\ conforms cloud 2 composite_space (composite_obs 2)
    /\ forward raw_encoder (composite_obs 2) 0%nat = Ok (out, r2)
    /\ Forall (fun s => exists w, space_shape s = Some [w])
              (aux_spaces composite_space).
Proof.
  assert (Harr : Forall (fun s => array_space s = true)
                        (aux_spaces composite_space))
    by (repeat constructor).
  assert (K : contracts cloud batched raw_encoder 2 4 3)
    by (apply demo_contracts; reflexivity).
  destruct (@forward numeric random collaborators raw_encoder
              (composite_obs 2) 0%nat)
    as [[out r2]|e] eqn:Hfwd; [|vm_compute in Hfwd; discriminate].
  exists out, r2.
  destruct (@forward_returns_only_on_vectors numeric random collaborators
              cloud batched _ _ _ _ _ _ _ _ _ 2 3 _ 0%nat out r2
              demo_raw_built Harr K (demo_conforms 2) Hfwd) as [Hv _].
  exact (conj demo_raw_built
           (conj K (conj (demo_conforms 2) (conj eq_refl Hv)))).
Defined.


Lemma forward_ignores_secondary_output_witness :
  (forall m pos batch color r0,
      drop_secondary (@call_tokenizer _ _ collaborators m pos batch color r0)
      = drop_secondary (@call_tokenizer _ _ masked m pos batch color r0))
  /\ @forward _ _ collaborators raw_encoder (composite_obs 2) 0%nat
     = @forward _ _ masked raw_encoder (composite_obs 2) 0%nat.
Proof.
  assert (Ht : forall m pos batch color r0,
             drop_secondary
               (@call_tokenizer _ _ collaborators m pos batch color r0)
             = drop_secondary
                 (@call_tokenizer _ _ masked m pos batch color r0)).
  { intros m pos batch color r0. simpl.
    destruct (tokenize m pos batch color) as [[[x a] c]|e]; reflexivity. }
  split; [exact Ht|].
  apply (@forward_ignores_secondary_output numeric random collaborators masked
           raw_encoder (composite_obs 2) 0%nat); try reflexivity.
  exact Ht.
Defined.

End FurtherInstances.

(** * The state projection and the point encoder *)

Section StateArgument.

Context {N : Numeric} {R : Random} {C : Collaborators}.

Ltac same_step H1 H2 :=
  let a := fresh "a" in let s := fresh "s" in let E1 := fresh "E" in
  let b := fresh "b" in let t := fresh "t" in let E2 := fresh "F" in
  apply bind_Ok in H1; destruct H1 as (a & s & E1 & H1);
  apply bind_Ok in H2; destruct H2 as (b & t & E2 & H2);
  rewrite E1 in E2; inversion E2; subst b t; clear E2.

(** X10: the [state_embed_dim] argument reaches the state projection and
    the recorded state width only: from the same generator state, two
    constructions that differ in that argument alone build the same
    tokenizer, positional embedder, transformer encoder and pooling stage,
    with the same initial weights. *)
Theorem state_embed_dim_leaves_components :
  forall obs_space tokenizer_f pos_embedder_f transformer_encoder_f E
         sed1 sed2 r self1 r1 self2 r2,
    __init__ obs_space tokenizer_f pos_embedder_f transformer_encoder_f E
             sed1 r = Ok (self1, r1) ->
    __init__ obs_space tokenizer_f pos_embedder_f transformer_encoder_f E
             sed2 r = Ok (self2, r2) ->
    components self1 = components self2
    /\ obs_is_dict self1 = obs_is_dict self2.
Proof.
  intros sp tf pf tef E sed1 sed2 r self1 r1 self2 r2 H1 H2.
  unfold __init__ in H1, H2.
  do 11 same_step H1 H2.
  destruct sp as [sh|spaces|sh].
  - inversion H1; inversion H2; subst. split; reflexivity.
  - same_step H1 H2.
    assert (G1 : components self1 = [a6; a7; a8; a9]
                 /\ obs_is_dict self1 = true).
    { destruct sed1 as [d|].
      - apply bind_Ok in H1. destruct H1 as (enc & s' & _ & H1).
        inversion H1. split; reflexivity.
      - inversion H1. split; reflexivity. }
    assert (G2 : components self2 = [a6; a7; a8; a9]
                 /\ obs_is_dict self2 = true).
    { destruct sed2 as [d|].
      - apply bind_Ok in H2. destruct H2 as (enc & s' & _ & H2).
        inversion H2. split; reflexivity.
      - inversion H2. split; reflexivity. }
    destruct G1 as [-> ->], G2 as [-> ->]. split; reflexivity.
  - inversion H1; inversion H2; subst. split; reflexivity.
Qed.

End StateArgument.

(** * Observations that do not conform *)

Section Unvalidated.

Context {N : Numeric} {R : Random} {C : Collaborators}.

Variable cloud : Z -> ArrayTree -> Prop.
Variable batched : Z -> Tensor -> Tensor -> option Tensor -> Prop.

(** X11: the forward pass does not check the auxiliary fields against the
    space: without a projection it concatenates whatever rows the
    observation carries, so the width of the result is the pooled width
    plus the widths found in the observation, whatever state width was
    recorded at construction. *)
Theorem forward_width_follows_observation :
  forall self B E pd items pc ts ws r,
    obs_is_dict self = true ->
    state_encoder self = None ->
    contracts cloud batched self B E pd ->
    PyDict.get items "points" = Some pc ->
    cloud B pc ->
    PyDict.values_except "points" items = map Leaf ts ->
    rows B ts ws ->
    exists out r',
      forward self (Node items) r = Ok (out, r')
      /\ shape out = [B; E + fold_right Z.add 0 ws].
Proof.
  intros self B E pd items pc ts ws r Hd Hs K Hget Hcloud Hts Hrows.
  destruct (@pipeline_runs _ _ _ cloud batched self B E pd pc r K Hcloud)
    as (encoder_out & r' & Henc & Hsh).
  assert (Hpc : (if obs_is_dict self then tree_getitem (Node items) "points"
                 else Ok (Node items)) = Ok pc).
  { rewrite Hd. simpl. unfold PyDict.getitem. rewrite Hget. reflexivity. }
  rewrite (@forward_encodes _ _ _ self (Node items) pc r encoder_out r'
             Hpc Henc).
  destruct (@fuse_raw _ self items encoder_out B E ts ws Hd Hs Hsh Hts Hrows)
    as (out & _ & Hfuse & Hout).
  exists out, r'. rewrite Hfuse. split; [reflexivity|exact Hout].
Qed.


End Unvalidated.

Section UnvalidatedInstances.

Import Demo.

Lemma state_embed_dim_leaves_components_witness :
  __init__ composite_space tokenizer_f pos_embedder_f transformer_encoder_f
           4 None 0%nat = Ok (raw_encoder, 101%nat)
  /\ __init__ composite_space tokenizer_f pos_embedder_f transformer_encoder_f
              4 (Some 16) 0%nat = Ok (projected_encoder, 245%nat)
  /\ components raw_encoder = components projected_encoder
  /\ obs_is_dict raw_encoder = obs_is_dict projected_encoder.
Proof.
  split; [exact demo_raw_built|]. split; [exact demo_projected_built|].
  exact (@state_embed_dim_leaves_components numeric random collaborators
           composite_space tokenizer_f pos_embedder_f transformer_encoder_f 4
           None (Some 16) 0%nat raw_encoder 101%nat projected_encoder 245%nat
           demo_raw_built demo_projected_built).
Defined.

Lemma forward_width_follows_observation_witness :
  exists out r',
    state_dim raw_encoder = 8
    /\ contracts cloud batched raw_encoder 2 4 3
    /\ rows 2 [zeros [2; 3]; zeros [2; 5]; zeros [2; 2]] [3; 5; 2]
    /\ forward raw_encoder (wide_obs 2) 0%nat = Ok (out, r')
    /\ shape out = [2; 4 + 10].
Proof.
  assert (K : contracts cloud batched raw_encoder 2 4 3)
    by (apply demo_contracts; reflexivity).
  assert (Hrows : rows 2 [zeros [2; 3]; zeros [2; 5]; zeros [2; 2]] [3; 5; 2])
    by (repeat constructor).
  destruct (@forward_width_follows_observation numeric random collaborators
              cloud batched raw_encoder 2 4 3
              [("gripper", Leaf (zeros [2; 3])); ("points", points 2);
               ("joints", Leaf (zeros [2; 5])); ("extra", Leaf (zeros [2; 2]))]
              (points 2) [zeros [2; 3]; zeros [2; 5]; zeros [2; 2]] [3; 5; 2]
              0%nat eq_refl eq_refl K eq_refl (demo_cloud 2)
              eq_refl Hrows)
    as (out & r' & Hfwd & Hsh).
  exists out, r'.
  exact (conj eq_refl (conj K (conj Hrows (conj Hfwd Hsh)))).
Defined.


End UnvalidatedInstances.
